(** * Portal-App: the profile bootstrap flow of the Home screen

    A shallow embedding of [initializeProfile], the effect body of the
    second [useEffect] of [src/app/(tabs)/index.tsx] (lines 130-320), and
    of the helper [waitForRelayConnection] it declares (lines 186-226).

    The flow is an [async] function: a sequence of awaited calls into
    collaborators (expo-secure-store, the user-profile context, the Nostr
    service context, timers).  It is modelled in a small state-and-exception
    monad over a [World] that holds everything the flow can observe or
    change.  The collaborators are not part of the sources at hand; what
    each call answers is read from an [Env], the script of one trigger
    event.

    After the flow come the other handlers of the Home screen (first-launch
    bookkeeping, pull-to-refresh, the QR button, the truncated name and
    key), the handlers of the Settings screen ([src/unnamed/part_000]), the
    status texts and the fetch effect of the activity detail screen
    (the [index.tsx] of [src/app/activity]) and the push registration of the
    root layout ([src/unnamed/part_001]). *)

From Stdlib Require Import ZArith NArith List Ascii String Bool Lia QArith.
From stdpp Require Import base tactics option list gmap strings.

Local Open Scope string_scope.
Local Open Scope list_scope.
Local Open Scope Z_scope.

(** ** JavaScript strings *)

(** A JavaScript string is a sequence of UTF-16 code units. *)
Abbreviation jsstring := (list N).

(** The code units of an ASCII literal of the source. *)
Definition js (s : string) : jsstring :=
  map N_of_ascii (list_ascii_of_string s).

(** ECMAScript [WhiteSpace] and [LineTerminator] code points, the ones
    [String.prototype.trim] strips: TAB, LF, VT, FF, CR, SP, NBSP, the
    other space separators of Unicode, LS, PS and ZWNBSP. *)
Definition isWhiteSpace (c : N) : bool :=
  ((9 <=? c) && (c <=? 13) || (c =? 32) || (c =? 160) || (c =? 5760)
   || (8192 <=? c) && (c <=? 8202) || (c =? 8232) || (c =? 8233)
   || (c =? 8239) || (c =? 8287) || (c =? 12288) || (c =? 65279))%N.

Fixpoint trimStart (s : jsstring) : jsstring :=
  match s with
  | [] => []
  | c :: rest => if isWhiteSpace c then trimStart rest else s
  end.

Definition trimEnd (s : jsstring) : jsstring := rev (trimStart (rev s)).

(** [s.trim()] *)
Definition trim (s : jsstring) : jsstring := trimEnd (trimStart s).

(** Truthiness of a string value: every string but the empty one. *)
Definition truthy (s : jsstring) : bool :=
  match s with [] => false | _ :: _ => true end.

(** Truthiness of a [string | null] value. *)
Definition truthyOpt (v : option jsstring) : bool :=
  match v with Some s => truthy s | None => false end.

(** [v === lit] for a [string | null] value and a string literal. *)
Definition strictEq (v : option jsstring) (lit : jsstring) : bool :=
  match v with Some s => bool_decide (s = lit) | None => false end.

(** [v || ''] for a [string | null] value. *)
Definition orEmpty (v : option jsstring) : jsstring :=
  match v with Some (c :: s) => c :: s | _ => [] end.

(** ** Keys and literals of the flow *)

Definition PROFILE_INITIALIZED : string := "profile_initialized".
Definition SEED_ORIGIN : string := "portal_seed_origin".
Definition USERNAME_KEY : string := "portal_username".

Definition TRUE : jsstring := js "true".
Definition IMPORTED : jsstring := js "imported".
Definition GENERATED : jsstring := js "generated".
Definition LOADING : jsstring := js "Loading...".

(** ** Collaborators *)

(** [syncStatus] of the user-profile context; the flow only tells ['idle']
    from the rest. *)
Inductive SyncStatus := SyncIdle | SyncOther.

(** What [fetchProfile] resolves with: [{ found, username? }]. *)
Module ProfileResult.
Record t := make { found : bool; username : option jsstring }.
End ProfileResult.

(** The argument of [nostrService.setUserProfile]. *)
Record UserProfile := {
  nip05 : jsstring;
  name : jsstring;
  picture : jsstring;
  displayName : jsstring;
}.

(** The awaited calls of [initializeProfile] that may reject, one per place
    in the source.  None of them sits in a loop, so each is executed at most
    once in a run. *)
Inductive Site :=
| AtGuard            (* 152: getItemAsync('profile_initialized') *)
| AtSeedOrigin       (* 161: getItemAsync('portal_seed_origin') *)
| AtLocalImported    (* 170: getItemAsync('portal_username') *)
| AtPlaceholder      (* 183: setUsername('Loading...') *)
| AtFetch            (* 239: fetchProfile(publicKey) *)
| AtClearNotFound    (* 248: setUsername('') *)
| AtClearError       (* 253: setUsername('') *)
| AtLocalOther       (* 261: getItemAsync('portal_username') *)
| AtDeleteOrigin     (* 265: deleteItemAsync('portal_seed_origin') *)
| AtRecheck          (* 281: getItemAsync('profile_initialized') *)
| AtSetGamertag      (* 293: setUsername(randomGamertag) *)
| AtPublish          (* 296: setUserProfile({...}) *)
| AtMark.            (* 310: setItemAsync('profile_initialized', 'true') *)

(** The script of one trigger event: the values the effect closes over and
    what every collaborator answers when the flow calls it. *)
Record Env := {
  isInitialized : bool;            (* nostrService.isInitialized *)
  publicKey : option jsstring;     (* nostrService.publicKey *)
  portalApp : bool;                (* nostrService.portalApp is an object *)
  syncStatus : SyncStatus;
  throws : Site -> bool;           (* the call at this place rejects *)
  fetchResult : ProfileResult.t;   (* fetchProfile's value when it resolves *)
  fetchReflects : bool;            (* fetchProfile leaves a name it found in the
                                      user-profile context *)
  randomGamertag : jsstring;       (* generateRandomGamertag() *)
  relays : nat -> Z;               (* connectedCount left by the k-th timed await *)
  delay : nat -> N;                (* time the k-th timed await takes beyond its minimum *)
  rivalCompletes : bool;           (* another run marks the profile initialized
                                      while this one is suspended before line 281 *)
}.

(** ** The world *)

(** The collaborator calls a run makes, in order. *)
Inductive Event :=
| GetItem (key : string)
| SetItem (key : string) (value : jsstring)
| DeleteItem (key : string)
| SetUsername (value : jsstring)
| RefreshConnectionStatus (at_ms : Z) (count : Z)
| Fetch (pk : option jsstring)
| Publish (profile : UserProfile).

Inductive Console :=
| Log (msg : string)
| Error (msg : string).

(** Everything a run can observe or change.  A trigger event is one
    execution of the effect; it reads the latch as the world holds it then. *)
Record World := {
  secureStore : gmap string jsstring;  (* expo-secure-store *)
  username : jsstring;                 (* the user-profile context's username *)
  isInitializing : bool;               (* the [useState] latch of line 127 *)
  clock : Z;                           (* Date.now(), in ms *)
  connectedCount : Z;                  (* getConnectionSummary().connectedCount *)
  ticks : nat;                         (* timed awaits so far *)
  trace : list Event;
  console : list Console;
}.

Definition withStore (f : gmap string jsstring -> gmap string jsstring) (w : World) : World :=
  {| secureStore := f (secureStore w); username := username w;
     isInitializing := isInitializing w; clock := clock w;
     connectedCount := connectedCount w; ticks := ticks w;
     trace := trace w; console := console w |}.

Definition withUsername (u : jsstring) (w : World) : World :=
  {| secureStore := secureStore w; username := u;
     isInitializing := isInitializing w; clock := clock w;
     connectedCount := connectedCount w; ticks := ticks w;
     trace := trace w; console := console w |}.

(** [setIsInitializing(b)] *)
Definition setIsInitializing (b : bool) (w : World) : World :=
  {| secureStore := secureStore w; username := username w;
     isInitializing := b; clock := clock w;
     connectedCount := connectedCount w; ticks := ticks w;
     trace := trace w; console := console w |}.

(** A timed await: the clock advances by [ms] plus the lateness the script
    gives this await, and [f] updates the connection summary. *)
Definition elapse (env : Env) (ms : Z) (f : Z -> Z) (w : World) : World :=
  {| secureStore := secureStore w; username := username w;
     isInitializing := isInitializing w;
     clock := clock w + ms + Z.of_N (delay env (ticks w));
     connectedCount := f (connectedCount w); ticks := S (ticks w);
     trace := trace w; console := console w |}.

Definition emit (e : Event) (w : World) : World :=
  {| secureStore := secureStore w; username := username w;
     isInitializing := isInitializing w; clock := clock w;
     connectedCount := connectedCount w; ticks := ticks w;
     trace := trace w ++ [e]; console := console w |}.

Definition print (c : Console) (w : World) : World :=
  {| secureStore := secureStore w; username := username w;
     isInitializing := isInitializing w; clock := clock w;
     connectedCount := connectedCount w; ticks := ticks w;
     trace := trace w; console := console w ++ [c] |}.

(** ** The monad of the flow *)

(** How a piece of the [async] body ends: it runs to its end with a value,
    executes [return], throws, or (in the model only) exhausts the fuel of
    the polling loop. *)
Inductive Completion (A : Type) :=
| Done (a : A)
| Returned
| Thrown
| Stuck.
Arguments Done {A} a.
Arguments Returned {A}.
Arguments Thrown {A}.
Arguments Stuck {A}.

Definition M (A : Type) : Type := World -> Completion A * World.

Definition ret {A} (a : A) : M A := fun w => (Done a, w).

Definition bind {A B} (m : M A) (k : A -> M B) : M B :=
  fun w =>
    match m w with
    | (Done a, w') => k a w'
    | (Returned, w') => (Returned, w')
    | (Thrown, w') => (Thrown, w')
    | (Stuck, w') => (Stuck, w')
    end.

Notation "x <- m ;; k" := (bind m (fun x => k))
  (at level 100, m at next level, right associativity).
Notation "m ;;; k" := (bind m (fun _ => k))
  (at level 100, right associativity).

(** [try { m } catch (error) { h }] *)
Definition tryCatch {A} (m : M A) (h : M A) : M A :=
  fun w =>
    match m w with
    | (Thrown, w') => h w'
    | r => r
    end.

Definition lift (f : World -> World) : M unit := fun w => (Done tt, f w).

Definition log (msg : string) : M unit := lift (print (Log msg)).

(** An awaited collaborator call: it is recorded, then it rejects where the
    script says so and leaves the world as it is, or resolves with [k]. *)
Definition call {A} (env : Env) (s : Site) (e : Event) (k : M A) : M A :=
  fun w => if throws env s then (Thrown, emit e w) else k (emit e w).

(** [SecureStore.getItemAsync(key)] *)
Definition getItemAsync (env : Env) (s : Site) (key : string) : M (option jsstring) :=
  call env s (GetItem key) (fun w => (Done (secureStore w !! key), w)).

(** [SecureStore.setItemAsync(key, value)] *)
Definition setItemAsync (env : Env) (s : Site) (key : string) (value : jsstring) : M unit :=
  call env s (SetItem key value) (lift (withStore (insert key value))).

(** [SecureStore.deleteItemAsync(key)] *)
Definition deleteItemAsync (env : Env) (s : Site) (key : string) : M unit :=
  call env s (DeleteItem key) (lift (withStore (delete key))).

(** Modelled from the spec: [setUsername] of the user-profile context, which
    is not among the sources.  The spec gives it as the one setter of the
    display name, which "both updates in-memory state and persists to
    SecureKeyValueStore", under the key [portal_username]. *)
Definition setUsername (env : Env) (s : Site) (value : jsstring) : M unit :=
  call env s (SetUsername value)
    (lift (fun w => withUsername value (withStore (insert USERNAME_KEY value) w))).

(** Modelled from the spec: what the user-profile context, which is not
    among the sources, does with a name it fetched when it keeps it.  The
    display name is "mutated only through its setter", so it is what the
    setter does. *)
Definition reflectUsername (value : jsstring) (w : World) : World :=
  withUsername value (withStore (insert USERNAME_KEY value) w).

(** Modelled from the spec: [fetchProfile], which the source takes from
    [useUserProfile()], the owner of the username, and which is not among
    the sources.  The spec gives it as resolving with [{ found, username? }]
    or failing "by throwing on transport error".  For a name adopted from
    the network the spec has the user-profile context "already reflect" it
    when the flow goes on (step 7), and the flow has no call that would put
    it there: the context can only take the name in this call.  Whether it
    does is the script's to say, so that what is proved for every script
    holds of either context. *)
Definition fetchProfile (env : Env) (pk : option jsstring) : M ProfileResult.t :=
  call env AtFetch (Fetch pk)
    (if ProfileResult.found (fetchResult env)
        && truthyOpt (ProfileResult.username (fetchResult env))
        && fetchReflects env
     then
       let fetched := default [] (ProfileResult.username (fetchResult env)) in
       fun w => (Done (fetchResult env), reflectUsername fetched w)
     else ret (fetchResult env)).

(** Modelled from the spec: [nostrService.setUserProfile], which is not among
    the sources; it publishes, and "fails by throwing on transport/publish
    error". *)
Definition setUserProfile (env : Env) (p : UserProfile) : M unit :=
  call env AtPublish (Publish p) (ret tt).

(** Modelled from the spec: [nostrService.refreshConnectionStatus], which is
    not among the sources, a "side-effecting refresh" of the summary that
    [getConnectionSummary] reads; the spec gives it no failure.  The count it
    leaves is the script's; the event records when the call was made and the
    count it left. *)
Definition refreshConnectionStatus (env : Env) : M unit :=
  fun w => (Done tt, elapse env 0 (fun _ => relays env (ticks w))
                       (emit (RefreshConnectionStatus (clock w) (relays env (ticks w))) w)).

(** [new Promise(resolve => setTimeout(resolve, ms))]: the timer fires no
    earlier than [ms] after it was set. *)
Definition sleep (env : Env) (ms : Z) : M unit :=
  lift (elapse env ms (fun c => c)).

(** [nostrService.getConnectionSummary().connectedCount], a synchronous read
    of the last refreshed state. *)
Definition getConnectionSummary : M Z := fun w => (Done (connectedCount w), w).

(** [Date.now()] *)
Definition dateNow : M Z := fun w => (Done (clock w), w).

(** ** waitForRelayConnection (lines 186-226) *)

Definition maxWait : Z := 10000.
Definition checkInterval : Z := 1000.

(** The [while] loop of lines 202-221.  [fuel] bounds the iterations of the
    model; the loop of the source is bounded by the clock alone. *)
Fixpoint pollRelays (fuel : nat) (env : Env) (startTime : Z) : M bool :=
  t <- dateNow ;;
  if t - startTime <? maxWait then
    match fuel with
    | O => fun w => (Stuck, w)
    | S fuel' =>
        t' <- dateNow ;;
        (if Z.rem (t' - startTime) 5000 <? 1100
         then log "Still waiting for relay connections..."
         else ret tt) ;;;
        sleep env checkInterval ;;;
        refreshConnectionStatus env ;;;
        sleep env 100 ;;;
        connectionSummary <- getConnectionSummary ;;
        if 0 <? connectionSummary then
          log "Relays connected successfully!" ;;;
          ret true
        else pollRelays fuel' env startTime
    end
  else
    log "Timeout waiting for relay connections - proceeding with profile fetch anyway" ;;;
    ret false.

Definition waitForRelayConnection (fuel : nat) (env : Env) : M bool :=
  startTime <- dateNow ;;
  log "Waiting for relay connections..." ;;;
  refreshConnectionStatus env ;;;
  sleep env 100 ;;;
  connectionSummary <- getConnectionSummary ;;
  if 0 <? connectionSummary then
    log "Relays connected successfully!" ;;;
    ret true
  else pollRelays fuel env startTime.

(** ** initializeProfile (lines 131-317) *)

(** The one interleaving the source provides for (lines 280-287): while this
    run was suspended, another run has finished and marked the profile
    initialized.  The mark becomes visible with the read that looks for it. *)
Definition rival (env : Env) : M unit :=
  if rivalCompletes env then lift (withStore (insert PROFILE_INITIALIZED TRUE))
  else ret tt.

Definition recheckInitialized (env : Env) : M (option jsstring) :=
  call env AtRecheck (GetItem PROFILE_INITIALIZED)
    (rival env ;;;
     fun w => (Done (secureStore w !! PROFILE_INITIALIZED), w)).

(** The condition of lines 172-176 on the stored [portal_username]. *)
Definition usable (existingLocalUsername : option jsstring) : bool :=
  truthyOpt existingLocalUsername
  && truthyOpt (trim <$> existingLocalUsername)
  && negb (strictEq existingLocalUsername LOADING).

(** The profile of lines 296-301. *)
Definition dummyProfile (randomGamertag : jsstring) : UserProfile :=
  {| nip05 := randomGamertag ++ js "@getportal.cc";
     name := randomGamertag;
     picture := [];
     displayName := randomGamertag |}.

(** The [try] block, lines 160-310.  Its value is the last value of the
    local variable [currentUsername]. *)
Definition tryBlock (fuel : nat) (env : Env) : M jsstring :=
  seedOrigin <- getItemAsync env AtSeedOrigin SEED_ORIGIN ;;
  log "Seed origin:" ;;;
  currentUsername <-
    (if strictEq seedOrigin IMPORTED then
       log "Imported seed detected, checking for existing profile..." ;;;
       existingLocalUsername <- getItemAsync env AtLocalImported USERNAME_KEY ;;
       if usable existingLocalUsername then
         log "Found existing local profile:" ;;;
         ret (default [] existingLocalUsername)
       else
         log "No local profile found, fetching from network..." ;;;
         setUsername env AtPlaceholder LOADING ;;;
         hasRelayConnection <- waitForRelayConnection fuel env ;;
         log "DEBUG: hasRelayConnection result:" ;;;
         _summary <- getConnectionSummary ;;
         log "DEBUG: Connection summary after wait:" ;;;
         log "DEBUG: Attempting profile fetch..." ;;;
         tryCatch
           (profileResult <- fetchProfile env (publicKey env) ;;
            if ProfileResult.found profileResult
               && truthyOpt (ProfileResult.username profileResult)
            then
              log "Profile fetch completed, found username:" ;;;
              ret (default [] (ProfileResult.username profileResult))
            else
              log "Profile fetch failed or no profile found on network" ;;;
              setUsername env AtClearNotFound [] ;;;
              ret [])
           (log "Profile fetch error:" ;;;
            setUsername env AtClearError [] ;;;
            ret [])
     else
       log "Generated seed detected, skipping profile fetch..." ;;;
       stored <- getItemAsync env AtLocalOther USERNAME_KEY ;;
       ret (orEmpty stored)) ;;
  deleteItemAsync env AtDeleteOrigin SEED_ORIGIN ;;;
  (if negb (truthy (trim currentUsername)) then
     (if strictEq seedOrigin IMPORTED then
        log "No profile found on network. For imported seeds, this could mean:" ;;;
        log "1. Profile was never published to relays" ;;;
        log "2. Network connectivity issues" ;;;
        log "3. Profile exists on different relays" ;;;
        log "Creating dummy profile, but user can change it in settings..."
      else ret tt) ;;;
     (if strictEq seedOrigin GENERATED || strictEq seedOrigin IMPORTED then
        log "No existing profile found, creating dummy profile..." ;;;
        recentInitCheck <- recheckInitialized env ;;
        if strictEq recentInitCheck TRUE then
          log "Profile was initialized by another process, aborting dummy profile creation" ;;;
          fun w => (Returned, w)
        else
          log "Generated random gamertag:" ;;;
          setUsername env AtSetGamertag (randomGamertag env) ;;;
          setUserProfile env (dummyProfile (randomGamertag env)) ;;;
          log "Dummy profile created successfully:"
      else ret tt)
   else log "Existing profile found:") ;;;
  setItemAsync env AtMark PROFILE_INITIALIZED TRUE ;;;
  ret currentUsername.

(** How one call of [initializeProfile] ended.  The source function resolves
    with [undefined] on every path; the tag names the path. *)
Inductive Outcome :=
| Skipped                                (* a precondition failed: 134, 139, 145 *)
| AlreadyInitialized                     (* the guard of line 153 returned *)
| Completed (currentUsername : jsstring) (* the [try] block ran to its end *)
| Aborted                                (* the [return] of line 286 *)
| Failed                                 (* the [catch] of line 311 *)
| Rejected                               (* the read of line 152 threw *)
| OutOfFuel.                             (* the model's polling fuel ran out *)

Definition idle (s : SyncStatus) : bool :=
  match s with SyncIdle => true | SyncOther => false end.

Definition initializeProfile (fuel : nat) (env : Env) (w : World) : Outcome * World :=
  if negb (isInitialized env) || negb (truthyOpt (publicKey env)) || negb (portalApp env)
  then (Skipped, w)
  else if negb (idle (syncStatus env)) then (Skipped, w)
  else if isInitializing w
  then (Skipped, print (Log "Profile initialization already in progress, skipping...") w)
  else
    let w := print (Log "Setting isInitializing to true") w in
    let w := setIsInitializing true w in
    match getItemAsync env AtGuard PROFILE_INITIALIZED w with
    | (Done hasInitialized, w) =>
        if strictEq hasInitialized TRUE then (AlreadyInitialized, w)
        else
          let w := print (Log "Starting profile initialization for:") w in
          match tryBlock fuel env w with
          | (Done currentUsername, w) => (Completed currentUsername, setIsInitializing false w)
          | (Returned, w) => (Aborted, setIsInitializing false w)
          | (Thrown, w) =>
              let w := print (Error "Profile initialization failed:") w in
              (Failed, setIsInitializing false w)
          | (Stuck, w) => (OutOfFuel, w)
          end
    | (_, w) => (Rejected, w)
    end.

(** A sequence of trigger events, each with its own script: the effect runs
    once per event, on the world the previous run left. *)
Fixpoint triggers (fuel : nat) (envs : list Env) (w : World) : World :=
  match envs with
  | [] => w
  | env :: rest => triggers fuel rest (snd (initializeProfile fuel env w))
  end.

(** ** Scripts and worlds for the examples *)

Definition quiet : Site -> bool := fun _ => false.

Definition publishFails : Site -> bool :=
  fun s => match s with AtPublish => true | _ => false end.

Definition neverConnected : nat -> Z := fun _ => 0.

Definition onTime : nat -> N := fun _ => 0%N.

Definition scriptWith (app : bool) (result : ProfileResult.t) (failing : Site -> bool)
    (counts : nat -> Z) (rival : bool) : Env :=
  {| isInitialized := true; publicKey := Some (js "npub1portal"); portalApp := app;
     syncStatus := SyncIdle; throws := failing; fetchResult := result;
     fetchReflects := true;
     randomGamertag := js "BraveOtter42";
     relays := counts; delay := onTime; rivalCompletes := rival |}.

(** A qualifying trigger: no relay ever connects, every timer is on time,
    no other run interferes, and the user-profile context keeps a name it
    fetched. *)
Definition script (result : ProfileResult.t) (failing : Site -> bool) : Env :=
  scriptWith true result failing neverConnected false.

Definition fresh (store : gmap string jsstring) : World :=
  {| secureStore := store; username := []; isInitializing := false;
     clock := 1700000000000; connectedCount := 0; ticks := 0;
     trace := []; console := [] |}.

Definition notFound : ProfileResult.t := ProfileResult.make false None.

Definition foundBob : ProfileResult.t := ProfileResult.make true (Some (js "bob")).

(** ** Vocabulary of the statements *)

(** The first three trigger preconditions of the spec and the fourth one of
    the source (line 133), on the values the effect closes over. *)
Definition qualifies (env : Env) : bool :=
  isInitialized env && truthyOpt (publicKey env) && portalApp env && idle (syncStatus env).

(** What a run added to the trace. *)
Definition newEvents (w w' : World) : list Event :=
  drop (length (trace w)) (trace w').

Definition isCheck (e : Event) : bool :=
  match e with RefreshConnectionStatus _ _ => true | _ => false end.

Definition isStoreWrite (e : Event) : bool :=
  match e with SetItem _ _ | DeleteItem _ | SetUsername _ => true | _ => false end.

Definition isNetworkCall (e : Event) : bool :=
  match e with Fetch _ | Publish _ | RefreshConnectionStatus _ _ => true | _ => false end.

Definition isFetch (e : Event) : bool :=
  match e with Fetch _ => true | _ => false end.

Definition isPublish (e : Event) : bool :=
  match e with Publish _ => true | _ => false end.

Definition isSetUsername (e : Event) : bool :=
  match e with SetUsername _ => true | _ => false end.

(** When a connectivity check was made. *)
Definition checkedAt (e : Event) : Z :=
  match e with RefreshConnectionStatus at_ms _ => at_ms | _ => 0 end.

(** Connectivity checks, each at least [checkInterval] after time [t] and
    after the check before it. *)
Fixpoint spaced (t : Z) (checks : list Event) : Prop :=
  match checks with
  | [] => True
  | RefreshConnectionStatus t' _ :: rest => t + checkInterval <= t' /\ spaced t' rest
  | _ :: _ => False
  end.

(** Connectivity checks of which only the last may have seen a connected
    relay, [connected] telling whether it did. *)
Fixpoint stopsWhenConnected (checks : list Event) (connected : bool) : Prop :=
  match checks with
  | [] => connected = false
  | RefreshConnectionStatus _ count :: rest =>
      if 0 <? count then rest = [] /\ connected = true
      else stopsWhenConnected rest connected
  | _ :: _ => False
  end.

(** What the wait may change: the clock, the connection summary, the trace
    (by [checks]) and the console. *)
Record waited (w w' : World) (checks : list Event) : Prop := {
  waited_store : secureStore w' = secureStore w;
  waited_username : username w' = username w;
  waited_latch : isInitializing w' = isInitializing w;
  waited_trace : trace w' = trace w ++ checks;
  waited_clock : clock w <= clock w';
}.

(** The four ways a run that completes leaves the username, on the world
    before the run, the world after and the run's last [currentUsername]. *)

(** (a) The stored username is kept: it is not blank, the run resolved to it
    and did not touch it, and made neither a fetch nor a publish. *)
Definition localPreserved (w w' : World) (currentUsername : jsstring) : Prop :=
  truthy (trim currentUsername) = true
  /\ secureStore w !! USERNAME_KEY = Some currentUsername
  /\ secureStore w' !! USERNAME_KEY = Some currentUsername
  /\ username w' = username w
  /\ existsb isSetUsername (newEvents w w') = false
  /\ existsb isFetch (newEvents w w') = false
  /\ existsb isPublish (newEvents w w') = false.

(** (b) The username the network gave is the one the run resolved to, and
    nothing was published. *)
Definition networkAdopted (env : Env) (w w' : World) (currentUsername : jsstring) : Prop :=
  truthy (trim currentUsername) = true
  /\ existsb isFetch (newEvents w w') = true
  /\ ProfileResult.found (fetchResult env) = true
  /\ ProfileResult.username (fetchResult env) = Some currentUsername
  /\ existsb isPublish (newEvents w w') = false.

(** (c) A generated tag was made the username and its profile published,
    once. *)
Definition generatedPublished (env : Env) (w w' : World) (currentUsername : jsstring) : Prop :=
  truthy (trim currentUsername) = false
  /\ filter (fun e => isPublish e = true) (newEvents w w')
     = [Publish (dummyProfile (randomGamertag env))]
  /\ username w' = randomGamertag env
  /\ secureStore w' !! USERNAME_KEY = Some (randomGamertag env).

(** (d) No username is established: the origin is neither ["imported"] nor
    ["generated"], the stored username is blank or absent, and the run set,
    fetched and published nothing. *)
Definition nothingEstablished (w w' : World) (currentUsername : jsstring) : Prop :=
  truthy (trim currentUsername) = false
  /\ strictEq (secureStore w !! SEED_ORIGIN) IMPORTED = false
  /\ strictEq (secureStore w !! SEED_ORIGIN) GENERATED = false
  /\ username w' = username w
  /\ existsb isSetUsername (newEvents w w') = false
  /\ existsb isFetch (newEvents w w') = false
  /\ existsb isPublish (newEvents w w') = false.

(** Exactly one of the propositions of a list holds. *)
Fixpoint exactlyOne (Ps : list Prop) : Prop :=
  match Ps with
  | [] => False
  | P :: Qs => (P /\ Forall (fun Q => ~ Q) Qs) \/ (~ P /\ exactlyOne Qs)
  end.

(** ** The rest of the Home screen *)

(** [FIRST_LAUNCH_KEY], line 30. *)
Definition FIRST_LAUNCH_KEY : string := "portal_first_launch_completed".

(** An awaited call outside the profile flow: it is recorded, then it
    rejects or resolves with [k], as [rejects] says. *)
Definition attempt {A} (rejects : bool) (e : Event) (k : M A) : M A :=
  fun w => if rejects then (Thrown, emit e w) else k (emit e w).

(** The calls of the Home screen that are not calls of the profile flow. *)
Inductive HomeCall :=
| RefreshRelays                     (* nostrService.refreshConnectionStatus() *)
| RefreshNwc                        (* nostrService.refreshNwcConnectionStatus() *)
| RouterReplaceQr (timestamp : Z)   (* router.replace({pathname: '/qr', ...}) *)
| RouterPushSettings.               (* router.push('/settings') *)

(** The state of the [Home] component beside the profile flow's. *)
Record Home := {
  world : World;
  isFirstLaunch : option bool;   (* useState<boolean | null>(null), line 36 *)
  isMounted : bool;              (* isMounted.current, line 38 *)
  refreshing : bool;             (* line 37 *)
  userPublicKey : jsstring;      (* line 54 *)
  calls : list HomeCall;
}.

Definition onWorld (f : World -> World) (h : Home) : Home :=
  {| world := f (world h); isFirstLaunch := isFirstLaunch h; isMounted := isMounted h;
     refreshing := refreshing h; userPublicKey := userPublicKey h; calls := calls h |}.

(** [setIsFirstLaunch(v)] *)
Definition setIsFirstLaunch (v : bool) (h : Home) : Home :=
  {| world := world h; isFirstLaunch := Some v; isMounted := isMounted h;
     refreshing := refreshing h; userPublicKey := userPublicKey h; calls := calls h |}.

(** [setRefreshing(v)] *)
Definition setRefreshing (v : bool) (h : Home) : Home :=
  {| world := world h; isFirstLaunch := isFirstLaunch h; isMounted := isMounted h;
     refreshing := v; userPublicKey := userPublicKey h; calls := calls h |}.

(** [setUserPublicKey(v)] *)
Definition setUserPublicKey (v : jsstring) (h : Home) : Home :=
  {| world := world h; isFirstLaunch := isFirstLaunch h; isMounted := isMounted h;
     refreshing := refreshing h; userPublicKey := v; calls := calls h |}.

Definition record (c : HomeCall) (h : Home) : Home :=
  {| world := world h; isFirstLaunch := isFirstLaunch h; isMounted := isMounted h;
     refreshing := refreshing h; userPublicKey := userPublicKey h;
     calls := calls h ++ [c] |}.

(** The screen as first rendered over a world (lines 36-38 and 54). *)
Definition mount (w : World) : Home :=
  {| world := w; isFirstLaunch := None; isMounted := true; refreshing := false;
     userPublicKey := js "unknown pubkey"; calls := [] |}.

(** The cleanup of lines 68-73. *)
Definition unmount (h : Home) : Home :=
  {| world := world h; isFirstLaunch := isFirstLaunch h; isMounted := false;
     refreshing := refreshing h; userPublicKey := userPublicKey h; calls := calls h |}.

(** [markWelcomeAsViewed], lines 57-66. *)
Definition markWelcomeAsViewed (rejects : bool) (h : Home) : Home :=
  if isMounted h then
    match attempt rejects (SetItem FIRST_LAUNCH_KEY TRUE)
            (lift (withStore (insert FIRST_LAUNCH_KEY TRUE))) (world h) with
    | (Done _, w) => setIsFirstLaunch false (onWorld (fun _ => w) h)
    | (_, w) => onWorld (fun _ => print (Error "Failed to mark welcome as viewed:") w) h
    end
  else h.

(** [checkFirstLaunch], lines 111-121. *)
Definition checkFirstLaunch (rejects : bool) (h : Home) : Home :=
  if negb (isMounted h) then h
  else
    match attempt rejects (GetItem FIRST_LAUNCH_KEY)
            (fun w => (Done (secureStore w !! FIRST_LAUNCH_KEY), w)) (world h) with
    | (Done firstLaunchCompleted, w) =>
        setIsFirstLaunch (negb (strictEq firstLaunchCompleted TRUE)) (onWorld (fun _ => w) h)
    | (_, w) => onWorld (fun _ => print (Error "Failed to check first launch status:") w) h
    end.

(** The effect of lines 107-124, run when the Nostr service changes. *)
Definition serviceEffect (env : Env) (rejects : bool) (h : Home) : Home :=
  checkFirstLaunch rejects (setUserPublicKey (orEmpty (publicKey env)) h).

(** [handleQrScan], lines 377-391; [timestamp] is [Date.now()].  The call of
    [markWelcomeAsViewed] is not awaited; its effects are those of the call
    run to its end. *)
Definition handleQrScan (rejects : bool) (h : Home) : Home :=
  let h := record (RouterReplaceQr (clock (world h))) h in
  match isFirstLaunch h with
  | Some true => markWelcomeAsViewed rejects h
  | _ => h
  end.

(** [handleSettingsNavigate], lines 393-395. *)
Definition handleSettingsNavigate (h : Home) : Home := record RouterPushSettings h.

(** [onRefresh], lines 322-332.  Either refresh may reject: the handler has
    a [catch] for it. *)
Definition onRefresh (relaysReject nwcRejects : bool) (h : Home) : Home :=
  let h := setRefreshing true h in
  let h := record RefreshRelays h in
  let h :=
    if relaysReject
    then onWorld (print (Error "Error refreshing connection status:")) h
    else
      let h := record RefreshNwc h in
      if nwcRejects
      then onWorld (print (Error "Error refreshing connection status:")) h
      else h in
  setRefreshing false h.

(** [s.substring(start, end)]: both ends are clamped to the string and
    swapped when out of order. *)
Definition substring (s : jsstring) (start finish : Z) : jsstring :=
  let len := Z.of_nat (length s) in
  let a := Z.max 0 (Z.min start len) in
  let b := Z.max 0 (Z.min finish len) in
  take (Z.to_nat (Z.max a b - Z.min a b)) (drop (Z.to_nat (Z.min a b)) s).

(** [s.substring(start)] *)
Definition substringFrom (s : jsstring) (start : Z) : jsstring :=
  substring s start (Z.of_nat (length s)).

(** [x < n] for a screen width and an integer literal.  A width is a finite
    JavaScript number, and every such number is a rational. *)
Definition narrower (screenWidth : Q) (n : Z) : bool :=
  negb (Qle_bool (inject_Z n) screenWidth).

(** [charsToShow] of lines 342-347. *)
Definition keyCharsToShow (screenWidth : Q) : Z :=
  if narrower screenWidth 375 then 8
  else if narrower screenWidth 414 then 14
  else 22.

(** [charsToShow] of lines 360-365. *)
Definition nameCharsToShow (screenWidth : Q) : Z :=
  if narrower screenWidth 375 then 8
  else if narrower screenWidth 414 then 17
  else 22.

Definition ELLIPSIS : jsstring := js "...".

(** [truncatedPublicKey], lines 335-350. *)
Definition truncatedPublicKey (screenWidth : Q) (userPublicKey : jsstring) : jsstring :=
  if negb (truthy userPublicKey) then []
  else
    let charsToShow := keyCharsToShow screenWidth in
    substring userPublicKey 0 charsToShow ++ ELLIPSIS
    ++ substringFrom userPublicKey (Z.of_nat (length userPublicKey) - charsToShow).

(** [truncatedUsername], lines 354-374. *)
Definition truncatedUsername (screenWidth : Q) (username : jsstring) : jsstring :=
  if negb (truthy username) then []
  else
    let charsToShow := nameCharsToShow screenWidth in
    if Z.of_nat (length username) >? charsToShow
    then substring username 0 (charsToShow - 3) ++ ELLIPSIS
    else username.

(** The test of line 398: the screen renders only the loader. *)
Definition showsLoader (isLoading : bool) (h : Home) : bool :=
  isLoading || match isFirstLaunch h with None => true | Some _ => false end.

(** ** The Settings screen *)

(** [Alert.alert(title, message)] *)
Inductive AlertBox := Alert (title message : string).

(** The calls of [handleClearAppData]'s confirmation, in the order of the
    source. *)
Inductive ResetStep :=
| ClearUsername      (* await setUsername("") *)
| ClearAvatar        (* await setAvatarUri(null) *)
| DeleteMnemonic     (* deleteMnemonic() *)
| ResetDatabase      (* await resetDatabase() *)
| ResetOnboarding.   (* await resetOnboarding() *)

(** The state of [SettingsScreen] the handlers below touch. *)
Record Settings := {
  profile : World;               (* the store and username [setUsername] acts on *)
  usernameInput : jsstring;
  profileIsLoading : bool;
  walletUrl : jsstring;
  isConnected : bool;
  alerts : list AlertBox;
  emitted : list jsstring;       (* walletUrlEvents.emit("walletUrlChanged", url) *)
  keyboardDismissed : bool;      (* Keyboard.dismiss() *)
  resetSteps : list ResetStep;
}.

Definition onProfile (f : World -> World) (s : Settings) : Settings :=
  {| profile := f (profile s); usernameInput := usernameInput s;
     profileIsLoading := profileIsLoading s; walletUrl := walletUrl s;
     isConnected := isConnected s; alerts := alerts s; emitted := emitted s;
     keyboardDismissed := keyboardDismissed s; resetSteps := resetSteps s |}.

(** [setProfileIsLoading(v)] *)
Definition setProfileIsLoading (v : bool) (s : Settings) : Settings :=
  {| profile := profile s; usernameInput := usernameInput s;
     profileIsLoading := v; walletUrl := walletUrl s;
     isConnected := isConnected s; alerts := alerts s; emitted := emitted s;
     keyboardDismissed := keyboardDismissed s; resetSteps := resetSteps s |}.

Definition alert (title message : string) (s : Settings) : Settings :=
  {| profile := profile s; usernameInput := usernameInput s;
     profileIsLoading := profileIsLoading s; walletUrl := walletUrl s;
     isConnected := isConnected s; alerts := alerts s ++ [Alert title message];
     emitted := emitted s; keyboardDismissed := keyboardDismissed s;
     resetSteps := resetSteps s |}.

Definition emitWalletUrl (url : jsstring) (s : Settings) : Settings :=
  {| profile := profile s; usernameInput := usernameInput s;
     profileIsLoading := profileIsLoading s; walletUrl := walletUrl s;
     isConnected := isConnected s; alerts := alerts s;
     emitted := emitted s ++ [url]; keyboardDismissed := keyboardDismissed s;
     resetSteps := resetSteps s |}.

(** [setIsConnected(true); setWalletUrl(""); Keyboard.dismiss()] *)
Definition walletConnected (s : Settings) : Settings :=
  {| profile := profile s; usernameInput := usernameInput s;
     profileIsLoading := profileIsLoading s; walletUrl := [];
     isConnected := true; alerts := alerts s; emitted := emitted s;
     keyboardDismissed := true; resetSteps := resetSteps s |}.

Definition made (r : ResetStep) (s : Settings) : Settings :=
  {| profile := profile s; usernameInput := usernameInput s;
     profileIsLoading := profileIsLoading s; walletUrl := walletUrl s;
     isConnected := isConnected s; alerts := alerts s; emitted := emitted s;
     keyboardDismissed := keyboardDismissed s; resetSteps := resetSteps s ++ [r] |}.

(** Modelled from the spec: [setUsername] of the user-profile context, as in
    the profile flow, for a call that is not one of the flow's. *)
Definition setUsernameOr (rejects : bool) (value : jsstring) : M unit :=
  attempt rejects (SetUsername value)
    (lift (fun w => withUsername value (withStore (insert USERNAME_KEY value) w))).

(** The listener of lines 56-60: [Boolean(newUrl?.trim())]. *)
Definition walletUrlListener (newUrl : option jsstring) : bool :=
  truthyOpt (trim <$> newUrl).

Section Capitalize.

(** [String.prototype.toUpperCase], taken as it is. *)
Variable toUpperCase : jsstring -> jsstring.

(** [capitalizedUsername], lines 106-108: [charAt(0)] is the first code unit
    or the empty string, [slice(1)] the rest. *)
Definition capitalizedUsername (usernameInput : jsstring) : jsstring :=
  if truthy (trim usernameInput)
  then toUpperCase (take 1 usernameInput) ++ drop 1 usernameInput
  else [].

(** [handleSaveProfile], lines 101-121. *)
Definition handleSaveProfile (rejects : bool) (s : Settings) : Settings :=
  let s := setProfileIsLoading true s in
  let s :=
    match setUsernameOr rejects (capitalizedUsername (usernameInput s)) (profile s) with
    | (Done _, w) => alert "Success" "Profile updated successfully" (onProfile (fun _ => w) s)
    | (_, w) =>
        alert "Error" "Failed to save profile. Please try again."
          (onProfile (fun _ => print (Error "Error saving profile:") w) s)
    end in
  setProfileIsLoading false s.

End Capitalize.

(** [handleWalletUrlSubmit], lines 169-186; the emit is recorded, then it
    throws or returns, as [emitThrows] says. *)
Definition handleWalletUrlSubmit (emitThrows : bool) (s : Settings) : Settings :=
  if negb (truthy (trim (walletUrl s))) then alert "Error" "Please enter a valid URL" s
  else
    let s := emitWalletUrl (trim (walletUrl s)) s in
    if emitThrows
    then alert "Error" "Failed to connect wallet. Please try again."
           (onProfile (print (Error "Error connecting wallet:")) s)
    else alert "Success" "Wallet connected successfully" (walletConnected s).

(** The [onPress] of "Clear Data" in [handleClearAppData], lines 135-153.  [fails k] says that the
    [k]-th call throws; a call that throws is recorded as made. *)
Definition clearData (fails : ResetStep -> bool) (s : Settings) : Settings :=
  let failed (s : Settings) :=
    alert "Error" "Failed to Reset App. Please try again."
      (onProfile (print (Error "Error clearing app data:")) s) in
  let s := made ClearUsername s in
  match setUsernameOr (fails ClearUsername) [] (profile s) with
  | (Done _, w) =>
      let s := made ClearAvatar (onProfile (fun _ => w) s) in
      if fails ClearAvatar then failed s else
      let s := made DeleteMnemonic s in
      if fails DeleteMnemonic then failed s else
      let s := made ResetDatabase s in
      if fails ResetDatabase then failed s else
      let s := made ResetOnboarding s in
      if fails ResetOnboarding then failed s else s
  | (_, w) => failed (onProfile (fun _ => w) s)
  end.

(** A string that starts, or ends, with a white space character. *)
Definition startsWithSpace (s : jsstring) : bool :=
  match s with c :: _ => isWhiteSpace c | [] => false end.

Definition endsWithSpace (s : jsstring) : bool := startsWithSpace (rev s).

(** ** The activity detail screen *)

(** [s] starts with [sub]. *)
Fixpoint startsWith (s sub : jsstring) {struct sub} : bool :=
  match sub, s with
  | [], _ => true
  | _ :: _, [] => false
  | c :: sub', d :: s' => (c =? d)%N && startsWith s' sub'
  end.

(** [s.includes(sub)] *)
Fixpoint includes (s sub : jsstring) : bool :=
  startsWith s sub
  || match s with
     | [] => false
     | _ :: rest => includes rest sub
     end.

(** [switch (v)] compares with [===]. *)
Definition equals (v : jsstring) (literal : string) : bool := bool_decide (v = js literal).

(** [getStatusText], lines 140-151. *)
Definition getStatusText (status : jsstring) : jsstring :=
  if equals status "success" then js "Completed"
  else if equals status "pending" then js "Pending"
  else if equals status "failed" then js "Failed"
  else js "Unknown".

Section Activity.

(** [String.prototype.toLowerCase], taken as it is, and [ActivityType.Auth]
    of [@/models/Activity], which is not among the sources. *)
Variable toLowerCase : jsstring -> jsstring.
Variable Auth : jsstring.

(** [getActivityStatus], lines 98-112. *)
Definition getActivityStatus (detail : jsstring) : jsstring :=
  let lowerDetail := toLowerCase detail in
  if includes lowerDetail (js "approved") || includes lowerDetail (js "success")
  then js "success"
  else if includes lowerDetail (js "failed")
          || includes lowerDetail (js "denied")
          || includes lowerDetail (js "error")
          || includes lowerDetail (js "rejected")
  then js "failed"
  else js "pending".

(** [getActivityTypeText], lines 153-155. *)
Definition getActivityTypeText (type : jsstring) : jsstring :=
  if bool_decide (type = Auth) then js "Login Request" else js "Payment".

(** [getActivityDescription], lines 157-187. *)
Definition getActivityDescription (type status detail : jsstring) : jsstring :=
  if bool_decide (type = Auth) then
    if equals status "success" then js "You successfully authenticated with this service"
    else if equals status "failed" then
      if includes (toLowerCase detail) (js "denied")
      then js "You denied the authentication request"
      else js "Authentication was denied or failed"
    else if equals status "pending" then js "Authentication is being processed"
    else js "Authentication request"
  else
    if equals status "success" then js "Payment was completed successfully"
    else if equals status "failed" then
      if includes (toLowerCase detail) (js "denied")
      then js "You denied the payment request"
      else js "Payment failed or was rejected"
    else if equals status "pending" then js "Payment is being processed"
    else js "Payment request".

End Activity.

(** The state of [ActivityDetailScreen], lines 41-43, over the type of the
    activity rows. *)
Record ActivityScreen (A : Type) := {
  activity : option A;
  loading : bool;
  error : option string;
}.
Arguments activity {A}.
Arguments loading {A}.
Arguments error {A}.

(** What the screen renders, lines 189-221: the loader, the error text, or
    the details of the activity. *)
Inductive ActivityView (A : Type) :=
| Loader
| ErrorText (text : string)
| Details (a : A).
Arguments Loader {A}.
Arguments ErrorText {A} text.
Arguments Details {A} a.

(** The first render: [useState(null)], [useState(true)], [useState(null)]. *)
Definition opened {A} : ActivityScreen A :=
  {| activity := None; loading := true; error := None |}.

(** [fetchActivity], lines 60-77; [answer] is what [dbService.getActivity]
    does: it throws, or resolves with a row or with [null]. *)
Definition fetchActivity {A} (answer : Completion (option A)) (s : ActivityScreen A)
    : ActivityScreen A :=
  match answer with
  | Done (Some activityData) =>
      {| activity := Some activityData; loading := false; error := error s |}
  | Done None =>
      {| activity := activity s; loading := false; error := Some "Activity not found" |}
  | _ =>
      {| activity := activity s; loading := false; error := Some "Failed to load activity" |}
  end.

(** The effect of lines 59-82: the fetch runs only for a truthy [id], the
    route parameter the source takes as a string. *)
Definition idEffect {A} (id : option jsstring) (answer : Completion (option A))
    (s : ActivityScreen A) : ActivityScreen A :=
  if truthyOpt id then fetchActivity answer s else s.

(** Truthiness of a [string | null] text, and [text || fallback]. *)
Definition textOr (text : option string) (fallback : string) : string :=
  match text with
  | Some t => if String.eqb t "" then fallback else t
  | None => fallback
  end.

Definition hasText (text : option string) : bool :=
  match text with
  | Some t => negb (String.eqb t "")
  | None => false
  end.

(** Lines 189-221. *)
Definition view {A} (s : ActivityScreen A) : ActivityView A :=
  if loading s then Loader
  else
    match activity s with
    | Some a => if hasText (error s) then ErrorText (textOr (error s) "Activity not found")
                else Details a
    | None => ErrorText (textOr (error s) "Activity not found")
    end.

(** ** Push registration in the root layout *)

(** What an awaited platform call does: it resolves with a value, or rejects
    with a thrown value, kept as the text [`${e}`] gives for it. *)
Inductive Answer (A : Type) :=
| Resolves (a : A)
| Rejects (text : jsstring).
Arguments Resolves {A} a.
Arguments Rejects {A} text.

(** What the platform answers to one registration. *)
Record Device := {
  isAndroid : bool;                       (* Platform.OS === 'android' *)
  isDevice : bool;                        (* Device.isDevice *)
  existingStatus : Answer jsstring;       (* getPermissionsAsync().status *)
  requestedStatus : Answer jsstring;      (* requestPermissionsAsync().status *)
  projectId : option jsstring;            (* expoConfig's projectId ?? easConfig's *)
  pushToken : Answer jsstring;            (* getExpoPushTokenAsync({projectId}).data *)
}.

Inductive PushCall :=
| SetNotificationChannel
| GetPermissions
| RequestPermissions
| GetExpoPushToken (projectId : option jsstring).

(** What a registration leaves behind: the alerts shown, the platform calls
    made, and whether [console.error] was called. *)
Record Push := {
  alerted : list jsstring;
  pushCalls : list PushCall;
  errorLogged : bool;
}.

Definition noPush : Push := {| alerted := []; pushCalls := []; errorLogged := false |}.

Definition pushCall (c : PushCall) (p : Push) : Push :=
  {| alerted := alerted p; pushCalls := pushCalls p ++ [c]; errorLogged := errorLogged p |}.

Definition logPushError (p : Push) : Push :=
  {| alerted := alerted p; pushCalls := pushCalls p; errorLogged := true |}.

(** The text of [new Error(message)]. *)
Definition errorText (message : jsstring) : jsstring := js "Error: " ++ message.

(** [handleRegistrationError], lines 70-73: it alerts, then throws. *)
Definition handleRegistrationError (errorMessage : jsstring) (p : Push)
    : Answer unit * Push :=
  (Rejects (errorText errorMessage),
   {| alerted := alerted p ++ [errorMessage]; pushCalls := pushCalls p;
      errorLogged := errorLogged p |}).

(** Sequencing: what follows runs only when what comes before resolved. *)
Definition andThen {A B} (r : Answer A * Push) (k : A -> Push -> Answer B * Push)
    : Answer B * Push :=
  match r with
  | (Resolves a, p) => k a p
  | (Rejects e, p) => (Rejects e, p)
  end.

Definition awaitCall {A} (c : PushCall) (answer : Answer A) (p : Push) : Answer A * Push :=
  (answer, pushCall c p).

Definition GRANTED : jsstring := js "granted".

(** [registerForPushNotificationsAsync], lines 75-118.  Its value is the
    token, or [undefined] ([None]) where the source returns without one. *)
Definition registerForPushNotificationsAsync (d : Device) : Answer (option jsstring) * Push :=
  let p := if isAndroid d then pushCall SetNotificationChannel noPush else noPush in
  if isDevice d then
    andThen (awaitCall GetPermissions (existingStatus d) p) (fun existing p =>
    andThen (if negb (bool_decide (existing = GRANTED))
             then awaitCall RequestPermissions (requestedStatus d) p
             else (Resolves existing, p)) (fun finalStatus p =>
    if negb (bool_decide (finalStatus = GRANTED)) then
      andThen (handleRegistrationError
                 (js "Permission not granted to get push token for push notification!") p)
        (fun _ p => (Resolves None, p))
    else
      andThen (if negb (truthyOpt (projectId d))
               then handleRegistrationError (js "Project ID not found") p
               else (Resolves tt, p)) (fun _ p =>
      match awaitCall (GetExpoPushToken (projectId d)) (pushToken d) p with
      | (Resolves pushTokenString, p) => (Resolves (Some pushTokenString), p)
      | (Rejects e, p) =>
          andThen (handleRegistrationError e (logPushError p))
            (fun _ p => (Resolves None, p))
      end)))
  else
    andThen (handleRegistrationError
               (js "Must use physical device for push notifications") p)
      (fun _ p => (Resolves None, p)).

(** The caller, lines 232-237: [expoPushToken] after
    [.then(token => setExpoPushToken(token ?? ''))] and
    [.catch(error => setExpoPushToken(`${error}`))]. *)
Definition expoPushToken (d : Device) : jsstring :=
  match fst (registerForPushNotificationsAsync d) with
  | Resolves (Some token) => token
  | Resolves None => []
  | Rejects text => text
  end.

(** ** The flow on examples *)

Example run_generated :
  let '(o, w) := initializeProfile 9 (script notFound quiet)
                   (fresh {[ SEED_ORIGIN := GENERATED ]}) in
  o = Completed []
  /\ secureStore w !! PROFILE_INITIALIZED = Some TRUE
  /\ secureStore w !! SEED_ORIGIN = None
  /\ username w = js "BraveOtter42"
  /\ isInitializing w = false.
Proof. vm_compute. repeat split; reflexivity. Qed.

Example run_imported_with_local_name :
  let '(o, w) := initializeProfile 9 (script notFound quiet)
                   (fresh {[ SEED_ORIGIN := IMPORTED; USERNAME_KEY := js "alice" ]}) in
  o = Completed (js "alice")
  /\ trace w = [GetItem PROFILE_INITIALIZED; GetItem SEED_ORIGIN; GetItem USERNAME_KEY;
                DeleteItem SEED_ORIGIN; SetItem PROFILE_INITIALIZED TRUE].
Proof. vm_compute. split; reflexivity. Qed.

Example run_imported_not_found :
  let '(o, w) := initializeProfile 9 (script notFound quiet)
                   (fresh {[ SEED_ORIGIN := IMPORTED ]}) in
  o = Completed []
  /\ username w = js "BraveOtter42"
  /\ filter (fun e => isPublish e = true) (trace w)
     = [Publish (dummyProfile (js "BraveOtter42"))]
  /\ secureStore w !! PROFILE_INITIALIZED = Some TRUE.
Proof. vm_compute. repeat split; reflexivity. Qed.

Example trim_strips_both_ends :
  trim (js "  Loading... ") = LOADING /\ trim (js "   ") = [] /\ trim [160%N; 98%N; 9%N] = [98%N].
Proof. vm_compute. repeat split; reflexivity. Qed.

(** ** The bounded wait *)

Ltac run_m :=
  cbv beta iota delta
    [bind ret lift log call tryCatch dateNow getConnectionSummary sleep
     refreshConnectionStatus getItemAsync setItemAsync deleteItemAsync
     setUsername fetchProfile setUserProfile recheckInitialized rival
     elapse emit print withStore withUsername setIsInitializing reflectUsername];
  cbn [secureStore username isInitializing clock connectedCount ticks trace console
       fst snd].

Tactic Notation "run_m" "in" hyp(H) :=
  cbv beta iota delta
    [bind ret lift log call tryCatch dateNow getConnectionSummary sleep
     refreshConnectionStatus getItemAsync setItemAsync deleteItemAsync
     setUsername fetchProfile setUserProfile recheckInitialized rival
     elapse emit print withStore withUsername setIsInitializing reflectUsername] in H;
  cbn [secureStore username isInitializing clock connectedCount ticks trace console
       fst snd] in H.

Lemma waited_refl w : waited w w [].
Proof. split; rewrite ?app_nil_r; (reflexivity || lia). Qed.

Lemma waited_console w c :
  waited w {| secureStore := secureStore w; username := username w;
              isInitializing := isInitializing w; clock := clock w;
              connectedCount := connectedCount w; ticks := ticks w;
              trace := trace w; console := c |} [].
Proof. split; cbn; rewrite ?app_nil_r; (reflexivity || lia). Qed.

Section BoundedWait.

Variable env : Env.

(** Every timed await takes at least its nominal time, so the loop is
    entered at most nine times: after the first check 100 ms have passed,
    and every turn of the loop takes 1100 ms or more.  [k] counts the turns
    already taken. *)
Lemma pollRelays_bounded (start : Z) (fuel : nat) :
  forall (w : World) (k last : Z),
    0 <= k -> 100 + 1100 * k <= clock w - start -> 9 <= Z.of_nat fuel + k ->
    last <= clock w ->
    exists b w' checks,
      pollRelays fuel env start w = (Done b, w')
      /\ waited w w' checks
      /\ Z.of_nat (length checks) <= Z.max 0 (9 - k)
      /\ Forall (fun e => isCheck e = true) checks
      /\ spaced last checks
      /\ stopsWhenConnected checks b.
Proof.
  induction fuel as [|fuel IH]; intros w k last Hk Hclock Hfuel Hlast;
    simpl; run_m;
    (destruct (Z.ltb_spec (clock w - start) maxWait) as [Hlt|Hge];
     [unfold maxWait in Hlt
     | run_m; eexists false, _, []; split; [reflexivity|];
       split; [apply waited_console|];
       split; [simpl; unfold maxWait in Hge; lia|];
       split; [constructor|]; split; [exact I|reflexivity]]).
  - lia.
  - assert (Hk8 : k <= 8) by lia.
    pose proof (N2Z.is_nonneg (delay env (ticks w))).
    pose proof (N2Z.is_nonneg (delay env (S (ticks w)))).
    pose proof (N2Z.is_nonneg (delay env (S (S (ticks w))))).
    destruct (Z.rem (clock w - start) 5000 <? 1100); run_m;
      (destruct (0 <? relays env (S (ticks w))) eqn:Hcount;
       [ run_m; eexists true, _, [_]; split; [reflexivity|];
         split; [split; cbn; (reflexivity || unfold checkInterval; lia)|];
         split; [cbn [length]; lia|];
         split; [repeat constructor|];
         split; [cbn; unfold checkInterval; lia|];
         cbn; rewrite Hcount; split; reflexivity
       | match goal with |- context [pollRelays fuel env start ?w2] =>
           destruct (IH w2 (k + 1)
                       (clock w + checkInterval + Z.of_N (delay env (ticks w))))
             as (b & w' & checks & Hrun & Hw & Hlen & Hall & Hsp & Hstop);
           [lia | cbn; unfold checkInterval; lia | lia | cbn; lia |];
           destruct Hw as [Hs Hu Hl Ht Hc]; cbn in Hs, Hu, Hl, Ht, Hc;
           eexists b, w', (_ :: checks); split; [exact Hrun|];
           split; [split; rewrite ?Hs, ?Hu, ?Hl, ?Ht, <- ?app_assoc;
                   (reflexivity || unfold checkInterval in Hc; lia)|];
           split; [cbn [length]; lia|];
           split; [constructor; [reflexivity|exact Hall]|];
           split; [cbn; split; [unfold checkInterval; lia|exact Hsp]|];
           cbn; rewrite Hcount; exact Hstop
         end ]).
Qed.

(** What the answer of the loop means: [true] with a connected relay in the
    summary last read, [false] with [maxWait] or more gone since [start]. *)
Lemma pollRelays_verdict (start : Z) (fuel : nat) :
  forall (w w' : World) (b : bool),
    pollRelays fuel env start w = (Done b, w') ->
    if b then 0 < connectedCount w' else maxWait <= clock w' - start.
Proof.
  induction fuel as [|fuel IH]; intros w w' b; simpl; run_m;
    (destruct (Z.ltb_spec (clock w - start) maxWait) as [Hlt|Hge];
     [| run_m; intros [= <- <-]; exact Hge]).
  - discriminate.
  - destruct (Z.rem (clock w - start) 5000 <? 1100); run_m;
      (destruct (Z.ltb_spec 0 (relays env (S (ticks w)))) as [Hpos|Hneg];
       [ run_m; intros [= <- <-]; exact Hpos
       | intros H; exact (IH _ _ _ H) ]).
Qed.

(** With every await on time, the [k]-th turn of the loop starts 100 + 1100 k
    ms after [start] and makes its check 1000 ms later; the loop gives up
    after its ninth turn and not before. *)
Lemma pollRelays_on_time (start : Z) (fuel : nat) :
  (forall i, delay env i = 0%N) ->
  forall (w w' : World) (b : bool) (k : Z),
    0 <= k <= 9 -> clock w - start = 100 + 1100 * k ->
    pollRelays fuel env start w = (Done b, w') ->
    exists checks,
      trace w' = trace w ++ checks
      /\ (forall i e, checks !! i = Some e ->
                      checkedAt e = start + 1100 * (k + 1 + Z.of_nat i))
      /\ (b = false -> Z.of_nat (length checks) = 9 - k).
Proof.
  intros Hdelay.
  induction fuel as [|fuel IH]; intros w w' b k Hk Hclock; simpl; run_m;
    (destruct (Z.ltb_spec (clock w - start) maxWait) as [Hlt|Hge];
     [unfold maxWait in Hlt
     | unfold maxWait in Hge; run_m; intros [= <- <-]; exists [];
       cbn [trace length]; rewrite app_nil_r;
       split; [reflexivity|]; split; [intros i e; rewrite lookup_nil; discriminate | lia]]).
  - discriminate.
  - destruct (Z.rem (clock w - start) 5000 <? 1100); run_m; rewrite !Hdelay;
      (destruct (0 <? relays env (S (ticks w))) eqn:Hcount;
       [ run_m; intros [= <- <-]; eexists [_]; cbn [trace];
         split; [reflexivity|];
         split; [|discriminate];
         intros [|i] e; cbn;
           [ intros [= <-]; cbn; unfold checkInterval; lia
           | discriminate ]
       | intros Hrun;
         apply (IH _ _ _ (k + 1)) in Hrun as (checks & Ht & Hat & Hn);
         [| lia | cbn; unfold checkInterval; lia];
         cbn [trace] in Ht;
         eexists (_ :: checks); rewrite Ht, <- app_assoc;
         split; [reflexivity|];
         split; [| intros Hb; cbn [length]; specialize (Hn Hb); lia];
         intros [|i] e; cbn;
           [ intros [= <-]; cbn; unfold checkInterval; lia
           | intros He; rewrite (Hat i e He); lia ] ]).
Qed.

Lemma waitForRelayConnection_bounded (fuel : nat) (w : World) :
  (9 <= fuel)%nat ->
  exists b w' count more,
    waitForRelayConnection fuel env w = (Done b, w')
    /\ waited w w' (RefreshConnectionStatus (clock w) count :: more)
    /\ (length more <= 9)%nat
    /\ Forall (fun e => isCheck e = true) more
    /\ spaced (clock w) more
    /\ stopsWhenConnected (RefreshConnectionStatus (clock w) count :: more) b
    /\ (if b then 0 < connectedCount w' else 10000 <= clock w' - clock w)
    /\ ((forall i, delay env i = 0%N) ->
        (forall i e, (RefreshConnectionStatus (clock w) count :: more) !! i = Some e ->
                     checkedAt e = clock w + 1100 * Z.of_nat i)
        /\ (b = false -> length more = 9%nat)).
Proof.
  intros Hfuel. unfold waitForRelayConnection. run_m.
  pose proof (N2Z.is_nonneg (delay env (ticks w))).
  pose proof (N2Z.is_nonneg (delay env (S (ticks w)))).
  destruct (0 <? relays env (ticks w)) eqn:Hcount.
  - run_m. eexists true, _, _, []. split; [reflexivity|].
    split; [split; cbn; (reflexivity || lia)|].
    split; [cbn; lia|]. split; [constructor|]. split; [exact I|].
    split; [cbn; rewrite Hcount; split; reflexivity|].
    split; [cbn; apply Z.ltb_lt in Hcount; exact Hcount|].
    intros _. split; [|discriminate].
    intros [|i] e; cbn; [intros [= <-]; cbn; lia | discriminate].
  - match goal with |- context [pollRelays fuel env (clock w) ?w1] =>
      destruct (pollRelays_bounded (clock w) fuel w1 0 (clock w))
        as (b & w' & checks & Hrun & Hw & Hlen & Hall & Hsp & Hstop);
      [lia | cbn; lia | lia | cbn; lia |]
    end.
    pose proof (pollRelays_verdict _ _ _ _ _ Hrun) as Hverdict.
    unfold maxWait in Hverdict.
    destruct Hw as [Hs Hu Hl Ht Hc]; cbn in Hs, Hu, Hl, Ht, Hc.
    eexists b, w', _, checks. split; [exact Hrun|].
    split; [split; rewrite ?Hs, ?Hu, ?Hl, ?Ht, <- ?app_assoc; (reflexivity || lia)|].
    split; [lia|]. split; [exact Hall|]. split; [exact Hsp|].
    split; [cbn; rewrite Hcount; exact Hstop|].
    split; [exact Hverdict|].
    intros Hdelay.
    apply (pollRelays_on_time _ _ Hdelay _ _ _ 0) in Hrun as (checks' & Ht' & Hat & Hn);
      [| lia | cbn; rewrite !Hdelay; lia].
    cbn [trace] in Ht'. rewrite Ht' in Ht.
    apply app_inv_head in Ht. subst checks'.
    split; [| intros Hb; specialize (Hn Hb); lia].
    intros [|i] e; cbn; [intros [= <-]; cbn; lia | intros He; rewrite (Hat i e He); lia].
Qed.

(** Whatever the fuel, the wait touches neither the store, the username nor
    the latch, makes no call but connectivity checks, and does not throw. *)
Lemma pollRelays_frame (start : Z) (fuel : nat) :
  forall w, exists c w' checks,
    pollRelays fuel env start w = (c, w')
    /\ waited w w' checks
    /\ Forall (fun e => isCheck e = true) checks
    /\ c <> Thrown /\ c <> Returned.
Proof.
  induction fuel as [|fuel IH]; intros w; simpl; run_m;
    (destruct (clock w - start <? maxWait);
     [| run_m; eexists _, _, []; split; [reflexivity|];
        split; [apply waited_console|]; split; [constructor|]; split; discriminate]).
  - eexists _, _, []. split; [reflexivity|].
    split; [apply waited_refl|]. split; [constructor|]. split; discriminate.
  - pose proof (N2Z.is_nonneg (delay env (ticks w))).
    pose proof (N2Z.is_nonneg (delay env (S (ticks w)))).
    pose proof (N2Z.is_nonneg (delay env (S (S (ticks w))))).
    destruct (Z.rem (clock w - start) 5000 <? 1100); run_m;
      (destruct (0 <? relays env (S (ticks w)));
       [ run_m; eexists _, _, [_]; split; [reflexivity|];
         split; [split; cbn; (reflexivity || unfold checkInterval; lia)|];
         split; [repeat constructor|]; split; discriminate
       | match goal with |- context [pollRelays fuel env start ?w2] =>
           destruct (IH w2) as (c & w' & checks & Hrun & Hw & Hall & Hc1 & Hc2);
           destruct Hw as [Hs Hu Hl Ht Hc]; cbn in Hs, Hu, Hl, Ht, Hc;
           eexists c, w', (_ :: checks); split; [exact Hrun|];
           split; [split; rewrite ?Hs, ?Hu, ?Hl, ?Ht, <- ?app_assoc;
                   (reflexivity || unfold checkInterval in Hc; lia)|];
           split; [constructor; [reflexivity|exact Hall]|];
           split; assumption
         end ]).
Qed.

Lemma waitForRelayConnection_frame (fuel : nat) (w : World) :
  exists c w' checks,
    waitForRelayConnection fuel env w = (c, w')
    /\ waited w w' checks
    /\ Forall (fun e => isCheck e = true) checks
    /\ c <> Thrown /\ c <> Returned.
Proof.
  unfold waitForRelayConnection. run_m.
  pose proof (N2Z.is_nonneg (delay env (ticks w))).
  pose proof (N2Z.is_nonneg (delay env (S (ticks w)))).
  destruct (0 <? relays env (ticks w)).
  - run_m. eexists _, _, [_]. split; [reflexivity|].
    split; [split; cbn; (reflexivity || lia)|].
    split; [repeat constructor|]. split; discriminate.
  - match goal with |- context [pollRelays fuel env (clock w) ?w1] =>
      destruct (pollRelays_frame (clock w) fuel w1)
        as (c & w' & checks & Hrun & Hw & Hall & Hc1 & Hc2)
    end.
    destruct Hw as [Hs Hu Hl Ht Hc]; cbn in Hs, Hu, Hl, Ht, Hc.
    eexists c, w', (_ :: checks). split; [exact Hrun|].
    split; [split; rewrite ?Hs, ?Hu, ?Hl, ?Ht, <- ?app_assoc; (reflexivity || lia)|].
    split; [constructor; [reflexivity|exact Hall]|]. split; assumption.
Qed.

End BoundedWait.

(** ** Running the flow symbolically *)

Lemma key_flag_origin : PROFILE_INITIALIZED <> SEED_ORIGIN.
Proof. discriminate. Qed.
Lemma key_flag_username : PROFILE_INITIALIZED <> USERNAME_KEY.
Proof. discriminate. Qed.
Lemma key_username_origin : USERNAME_KEY <> SEED_ORIGIN.
Proof. discriminate. Qed.
Lemma key_origin_flag : SEED_ORIGIN <> PROFILE_INITIALIZED.
Proof. discriminate. Qed.
Lemma key_username_flag : USERNAME_KEY <> PROFILE_INITIALIZED.
Proof. discriminate. Qed.
Lemma key_origin_username : SEED_ORIGIN <> USERNAME_KEY.
Proof. discriminate. Qed.

Create HintDb keys.
#[local] Hint Resolve key_flag_origin key_flag_username key_username_origin
  key_origin_flag key_username_flag key_origin_username : keys.

(** The atom a stuck conditional is waiting for. *)
Ltac head_of t :=
  lazymatch t with
  | match ?x with _ => _ end => head_of x
  | ?f ?a =>
      lazymatch f with
      | match ?x with _ => _ end => head_of x
      | negb => head_of a
      | andb ?x => head_of x
      | orb ?x => head_of x
      | _ => t
      end
  | _ => t
  end.

Ltac store_lookups :=
  repeat first
    [ rewrite lookup_insert_eq
    | rewrite lookup_delete_eq
    | rewrite lookup_insert_ne by auto with keys
    | rewrite lookup_delete_ne by auto with keys ].

Ltac store_lookups_in H :=
  repeat first
    [ rewrite lookup_insert_eq in H
    | rewrite lookup_delete_eq in H
    | rewrite lookup_insert_ne in H by auto with keys
    | rewrite lookup_delete_ne in H by auto with keys ].

(** One step of the run kept in [H : run = (o, w')]: the atom the run waits
    for is replaced by its value where the context or evaluation gives it,
    and split on otherwise. *)
Ltac settle H a :=
  first
    [ match goal with
      | E : a = _ |- _ => rewrite E in H
      end
    | let v := eval vm_compute in a in
      lazymatch v with
      | true => change a with true in H
      | false => change a with false in H
      end
    | destruct a eqn:? ].

Ltac known_in H :=
  store_lookups_in H;
  repeat match goal with
         | E : secureStore ?x = _ |- _ => rewrite !E in H
         | E : username ?x = _ |- _ => rewrite !E in H
         | E : isInitializing ?x = _ |- _ => rewrite !E in H
         | E : trace ?x = _ |- _ => rewrite !E in H
         | E : secureStore ?x !! ?k = _ |- _ => rewrite !E in H
         | E : fetchResult ?x = _ |- _ => rewrite !E in H
         end;
  cbn [ProfileResult.found ProfileResult.username truthyOpt from_option id] in H.

Ltac step H :=
  lazymatch type of H with
  | (_, _) = (_, _) => fail "done"
  | ?lhs = _ =>
      let a := head_of lhs in
      lazymatch a with
      | waitForRelayConnection ?fuel ?env ?w1 =>
          let c := fresh "c" in
          let w2 := fresh "w" in
          let checks := fresh "checks" in
          let Hrun := fresh "Hrun" in
          let Hw := fresh "Hw" in
          let Hall := fresh "Hchecks" in
          let Hc1 := fresh "Hc" in
          let Hc2 := fresh "Hc" in
          first
            [ match goal with
              | Hfuel : (9 <= fuel)%nat |- _ =>
                  destruct (waitForRelayConnection_bounded env fuel w1 Hfuel)
                    as (?connected & w2 & ?count & ?more & Hrun & Hw
                        & ?Hlen & ?Hmore & ?Hspaced & ?Hstops & ?Hverdict & ?Hontime)
              end
            | destruct (waitForRelayConnection_frame env fuel w1)
                as (c & w2 & checks & Hrun & Hw & Hall & Hc1 & Hc2);
              (destruct c; [| congruence | congruence |]) ];
          rewrite Hrun in H; clear Hrun;
          destruct Hw as [?Hs ?Hu ?Hl ?Ht ?Hck];
          cbn [secureStore username isInitializing clock trace] in *
      | _ => settle H a
      end;
      cbn [negb orb andb] in H; run_m in H; known_in H
  end.

Ltac finish H := apply pair_equal_spec in H as [<- <-].

(** The texts of [console.log] play no part in the run: they are put away
    before it starts. *)
Ltac seal_logs H :=
  repeat match type of H with
         | context [log ?s] =>
             lazymatch s with
             | String _ _ =>
                 let m := fresh "msg" in
                 pose (m := s); change s with m in H; clearbody m
             end
         | context [Log ?s] =>
             lazymatch s with
             | String _ _ =>
                 let m := fresh "msg" in
                 pose (m := s); change s with m in H; clearbody m
             end
         end.

Ltac run_flow H :=
  unfold initializeProfile, tryBlock in H; seal_logs H; run_m in H; known_in H;
  repeat step H; finish H.

Lemma qualifies_true (env : Env) :
  qualifies env = true ->
  isInitialized env = true /\ truthyOpt (publicKey env) = true
  /\ portalApp env = true /\ idle (syncStatus env) = true.
Proof.
  unfold qualifies. intros H.
  apply andb_prop in H as [H H4]. apply andb_prop in H as [H H3].
  apply andb_prop in H as [H1 H2]. auto.
Qed.

(** Connectivity checks are none of the other calls. *)
Lemma checks_existsb (p : Event -> bool) (checks : list Event) :
  (forall t c, p (RefreshConnectionStatus t c) = false) ->
  Forall (fun e => isCheck e = true) checks ->
  existsb p checks = false.
Proof.
  intros Hp. induction 1 as [|e l He _ IH]; [reflexivity|].
  cbn [existsb]. rewrite IH. destruct e; try discriminate He.
  rewrite Hp. reflexivity.
Qed.

Lemma checks_filter (p : Event -> bool) (checks : list Event) :
  (forall t c, p (RefreshConnectionStatus t c) = false) ->
  Forall (fun e => isCheck e = true) checks ->
  filter (fun e => p e = true) checks = [].
Proof.
  intros Hp. induction 1 as [|e l He _ IH]; [reflexivity|].
  rewrite filter_cons_False; [exact IH|].
  destruct e; try discriminate He. rewrite Hp. discriminate.
Qed.

(** The events a run added, once the run is known. *)
Ltac new_events :=
  unfold newEvents; cbn [trace];
  repeat match goal with
         | E : trace ?x = _ |- context [trace ?x] => rewrite E
         end;
  rewrite <- ?app_assoc;
  rewrite ?drop_app_length, ?drop_all; cbn [app].

Ltac among_checks :=
  cbn [existsb isPublish isFetch isSetUsername orb];
  repeat first
    [ rewrite existsb_app
    | rewrite checks_existsb by first [assumption | reflexivity]
    | progress cbn [existsb isPublish isFetch isSetUsername orb] ].

Ltac filter_events :=
  repeat first
    [ rewrite filter_cons_True by reflexivity
    | rewrite filter_cons_False by (cbn; discriminate)
    | rewrite filter_app
    | rewrite checks_filter by first [assumption | reflexivity]
    | rewrite filter_nil ];
  cbn [app].

(** ** The trigger preconditions and the guard *)

(** C9.  The source has a precondition the spec does not list: when
    [nostrService.portalApp] is null or undefined the call is a no-op, even
    for a trigger that meets every other precondition with no run in
    progress.  Nothing is read, written, called or logged, and the latch is
    untouched: the world is the one the call found. *)
Theorem missing_portalApp_is_noop (fuel : nat) (env : Env) (w : World) :
  portalApp env = false ->
  initializeProfile fuel env w = (Skipped, w).
Proof.
  intros Happ. unfold initializeProfile. rewrite Happ.
  destruct (isInitialized env), (truthyOpt (publicKey env)); reflexivity.
Qed.

Lemma missing_portalApp_is_noop_witness :
  let env := scriptWith false notFound quiet neverConnected false in
  isInitialized env = true
  /\ truthyOpt (publicKey env) = true
  /\ idle (syncStatus env) = true
  /\ isInitializing (fresh ∅) = false
  /\ initializeProfile 9 env (fresh ∅) = (Skipped, fresh ∅).
Proof.
  repeat (split; [reflexivity|]).
  apply (missing_portalApp_is_noop 9
           (scriptWith false notFound quiet neverConnected false) (fresh ∅)).
  reflexivity.
Defined.

(** One run on a store that already holds [profile_initialized = "true"]:
    the store and the username are untouched and the only call made, if any,
    is the guard's read. *)
Lemma initialized_run_is_inert (fuel : nat) (env : Env) (w : World) :
  secureStore w !! PROFILE_INITIALIZED = Some TRUE ->
  let w' := snd (initializeProfile fuel env w) in
  secureStore w' = secureStore w
  /\ username w' = username w
  /\ (trace w' = trace w \/ trace w' = trace w ++ [GetItem PROFILE_INITIALIZED]).
Proof.
  intros Hflag.
  destruct (initializeProfile fuel env w) as [o w'] eqn:H.
  run_flow H; cbn; auto.
Qed.

Lemma reads_only_app (l1 l2 : list Event) :
  existsb isStoreWrite l1 = false -> existsb isNetworkCall l1 = false ->
  existsb isStoreWrite l2 = false -> existsb isNetworkCall l2 = false ->
  existsb isStoreWrite (l1 ++ l2) = false /\ existsb isNetworkCall (l1 ++ l2) = false.
Proof. intros H1 H2 H3 H4. rewrite !existsb_app, H1, H2, H3, H4. auto. Qed.

Lemma initialized_triggers_extend (fuel : nat) (envs : list Env) :
  forall w,
    secureStore w !! PROFILE_INITIALIZED = Some TRUE ->
    secureStore (triggers fuel envs w) = secureStore w
    /\ username (triggers fuel envs w) = username w
    /\ exists reads,
         trace (triggers fuel envs w) = trace w ++ reads
         /\ existsb isStoreWrite reads = false
         /\ existsb isNetworkCall reads = false.
Proof.
  induction envs as [|env envs IH]; intros w Hflag; cbn [triggers].
  - repeat split; [..|exists []]; rewrite ?app_nil_r; auto.
  - destruct (initialized_run_is_inert fuel env w Hflag) as (Hs & Hu & Ht).
    set (w1 := snd (initializeProfile fuel env w)) in *.
    destruct (IH w1) as (Hs' & Hu' & reads & Ht' & Hw & Hn);
      [rewrite Hs; exact Hflag|].
    split; [congruence|]. split; [congruence|].
    destruct Ht as [Ht|Ht]; rewrite Ht' , Ht.
    + exists reads. auto.
    + exists (GetItem PROFILE_INITIALIZED :: reads).
      rewrite <- app_assoc. cbn. auto.
Qed.

(** C7 (P1, idempotence).  Once [profile_initialized] is ["true"], whatever
    sequence of trigger events follows, with whatever scripts, the runs write
    nothing to the secure store (no set, no delete, no [setUsername]), make
    no network call (no fetch, no publish, no connectivity refresh) and leave
    the stored and the displayed username as they were. *)
Theorem initialized_triggers_are_inert (fuel : nat) (envs : list Env) (w : World) :
  secureStore w !! PROFILE_INITIALIZED = Some TRUE ->
  let w' := triggers fuel envs w in
  secureStore w' = secureStore w
  /\ username w' = username w
  /\ existsb isStoreWrite (newEvents w w') = false
  /\ existsb isNetworkCall (newEvents w w') = false.
Proof.
  intros Hflag.
  destruct (initialized_triggers_extend fuel envs w Hflag)
    as (Hs & Hu & reads & Ht & Hw & Hn).
  cbn zeta. unfold newEvents. rewrite Ht, drop_app_length. auto.
Qed.

Lemma initialized_triggers_are_inert_witness :
  let w := fresh {[ PROFILE_INITIALIZED := TRUE; SEED_ORIGIN := IMPORTED ]} in
  let w' := triggers 9 [script foundBob quiet; script notFound publishFails] w in
  secureStore w' = secureStore w
  /\ username w' = username w
  /\ existsb isStoreWrite (newEvents w w') = false
  /\ existsb isNetworkCall (newEvents w w') = false.
Proof.
  apply (initialized_triggers_are_inert 9
           [script foundBob quiet; script notFound publishFails]
           (fresh {[ PROFILE_INITIALIZED := TRUE; SEED_ORIGIN := IMPORTED ]})).
  vm_compute. reflexivity.
Defined.

(** C3, as the code has it.  When the guard of line 153 finds
    [profile_initialized = "true"] the function returns from before the
    [try], so the [finally] that clears the latch does not run: the latch,
    set on line 149, stays set, and every later trigger stops at the latch
    test of line 143. *)
Theorem guard_return_leaves_latch_set (fuel : nat) (env : Env) (w : World) :
  qualifies env = true ->
  isInitializing w = false ->
  throws env AtGuard = false ->
  secureStore w !! PROFILE_INITIALIZED = Some TRUE ->
  exists w',
    initializeProfile fuel env w = (AlreadyInitialized, w')
    /\ isInitializing w' = true
    /\ forall fuel2 env2,
         fst (initializeProfile fuel2 env2 w') = Skipped
         /\ isInitializing (snd (initializeProfile fuel2 env2 w')) = true.
Proof.
  intros Hq Hlatch Hguard Hflag.
  apply qualifies_true in Hq as (Hq1 & Hq2 & Hq3 & Hq4).
  destruct (initializeProfile fuel env w) as [o w'] eqn:H.
  run_flow H. eexists. split; [reflexivity|]. split; [reflexivity|].
  intros fuel2 env2. unfold initializeProfile. cbn [isInitializing].
  repeat (case_match; cbn [fst snd]; try solve [auto]).
Qed.

Lemma guard_return_leaves_latch_set_witness :
  exists w',
    initializeProfile 9 (script notFound quiet) (fresh {[ PROFILE_INITIALIZED := TRUE ]})
    = (AlreadyInitialized, w')
    /\ isInitializing w' = true
    /\ forall fuel2 env2,
         fst (initializeProfile fuel2 env2 w') = Skipped
         /\ isInitializing (snd (initializeProfile fuel2 env2 w')) = true.
Proof.
  apply (guard_return_leaves_latch_set 9 (script notFound quiet)
           (fresh {[ PROFILE_INITIALIZED := TRUE ]})).
  - reflexivity.
  - reflexivity.
  - reflexivity.
  - vm_compute. reflexivity.
Defined.

(** The guard's read of line 152 comes after the latch is set and before the
    [try]: when it throws, the promise rejects and the latch stays set as
    well. *)
Lemma guard_rejection_leaves_latch_set (fuel : nat) (env : Env) (w : World) :
  qualifies env = true ->
  isInitializing w = false ->
  throws env AtGuard = true ->
  exists w',
    initializeProfile fuel env w = (Rejected, w') /\ isInitializing w' = true.
Proof.
  intros Hq Hlatch Hguard.
  apply qualifies_true in Hq as (Hq1 & Hq2 & Hq3 & Hq4).
  destruct (initializeProfile fuel env w) as [o w'] eqn:H.
  run_flow H. eexists. split; reflexivity.
Qed.

(** C10.  The non-imported branch reads the stored [portal_username]
    without the filter of the imported branch: with origin ["generated"] and
    a stored username equal to the placeholder ["Loading..."], the run takes
    ["Loading..."] for its resolved username, generates and publishes no
    profile (no [setUsername], no [setUserProfile]), and sets
    [profile_initialized] to ["true"]. *)
Theorem generated_keeps_placeholder (fuel : nat) (env : Env) (w : World) :
  qualifies env = true ->
  isInitializing w = false ->
  strictEq (secureStore w !! PROFILE_INITIALIZED) TRUE = false ->
  secureStore w !! SEED_ORIGIN = Some GENERATED ->
  secureStore w !! USERNAME_KEY = Some LOADING ->
  (forall s, In s [AtGuard; AtSeedOrigin; AtLocalOther; AtDeleteOrigin; AtMark] ->
             throws env s = false) ->
  exists w',
    initializeProfile fuel env w = (Completed LOADING, w')
    /\ secureStore w' !! PROFILE_INITIALIZED = Some TRUE
    /\ secureStore w' !! USERNAME_KEY = Some LOADING
    /\ username w' = username w
    /\ existsb isSetUsername (newEvents w w') = false
    /\ existsb isPublish (newEvents w w') = false.
Proof.
  intros Hq Hlatch Hflag Horigin Hname Hquiet.
  apply qualifies_true in Hq as (Hq1 & Hq2 & Hq3 & Hq4).
  destruct (initializeProfile fuel env w) as [o w'] eqn:H.
  pose proof (Hquiet AtGuard ltac:(cbn; auto)).
  pose proof (Hquiet AtSeedOrigin ltac:(cbn; auto)).
  pose proof (Hquiet AtLocalOther ltac:(cbn; auto)).
  pose proof (Hquiet AtDeleteOrigin ltac:(cbn; auto)).
  pose proof (Hquiet AtMark ltac:(cbn; auto 10)).
  run_flow H.
  eexists. split; [reflexivity|]. cbn [secureStore username].
  store_lookups. rewrite Hname. new_events. auto 10.
Qed.

Lemma generated_keeps_placeholder_witness :
  let w := fresh {[ SEED_ORIGIN := GENERATED; USERNAME_KEY := LOADING ]} in
  exists w',
    initializeProfile 9 (script notFound quiet) w = (Completed LOADING, w')
    /\ secureStore w' !! PROFILE_INITIALIZED = Some TRUE
    /\ secureStore w' !! USERNAME_KEY = Some LOADING
    /\ username w' = username w
    /\ existsb isSetUsername (newEvents w w') = false
    /\ existsb isPublish (newEvents w w') = false.
Proof.
  apply (generated_keeps_placeholder 9 (script notFound quiet)
           (fresh {[ SEED_ORIGIN := GENERATED; USERNAME_KEY := LOADING ]})).
  - reflexivity.
  - reflexivity.
  - vm_compute. reflexivity.
  - vm_compute. reflexivity.
  - vm_compute. reflexivity.
  - intros s _. reflexivity.
Defined.

(** ** The imported branch: the wait and the fetch *)

(** With no relay ever connected and every timer on time, the wait makes ten
    checks: one at once, then nine in the loop, the last of them 9.9 s after
    the start. *)
Example ten_checks_when_never_connected :
  let '(c, w) := waitForRelayConnection 9 (script notFound quiet) (fresh ∅) in
  c = Done false /\ length (filter (fun e => isCheck e = true) (trace w)) = 10%nat.
Proof. vm_compute. split; reflexivity. Qed.

(** A relay that shows up at the third check ends the wait there. *)
Example three_checks_when_connected_at_third :
  let env := scriptWith true notFound quiet
               (fun k => if (k <? 6)%nat then 0 else 2) false in
  let '(c, w) := waitForRelayConnection 9 env (fresh ∅) in
  c = Done true /\ length (filter (fun e => isCheck e = true) (trace w)) = 3%nat.
Proof. vm_compute. split; reflexivity. Qed.

(** C6 (P7, bounded wait).  In a run that reaches the wait (imported origin,
    no usable stored username), whatever the relays and the timers do: the
    first connectivity check is made at once, at the very time the wait
    starts; every further check comes at least one [checkInterval] (1 s)
    after the one before; there are at most ten checks in all; only the last
    check can have seen [connectedCount > 0], so the wait stops at the first
    check that does; and the wait returns, for the next call the run makes
    after the checks is [fetchProfile], also when no relay was ever
    connected.  The wait does not give up early either: when no check saw a
    relay, 10 000 ms or more have passed since the wait started (the wait
    is the only timed part of a run, so this is the time the run took).
    With every await on time the checks keep their schedule, the i-th one
    1100 i ms after the start (the interval of 1000 ms and the 100 ms the
    loop lets the summary settle), and there are exactly ten of them when no
    relay shows up. *)
Theorem bounded_wait_then_fetch (fuel : nat) (env : Env) (w : World) :
  (9 <= fuel)%nat ->
  qualifies env = true ->
  isInitializing w = false ->
  strictEq (secureStore w !! PROFILE_INITIALIZED) TRUE = false ->
  secureStore w !! SEED_ORIGIN = Some IMPORTED ->
  usable (secureStore w !! USERNAME_KEY) = false ->
  (forall s, In s [AtGuard; AtSeedOrigin; AtLocalImported; AtPlaceholder] ->
             throws env s = false) ->
  exists count more connected rest,
    newEvents w (snd (initializeProfile fuel env w))
    = [GetItem PROFILE_INITIALIZED; GetItem SEED_ORIGIN; GetItem USERNAME_KEY;
       SetUsername LOADING]
      ++ (RefreshConnectionStatus (clock w) count :: more)
      ++ Fetch (publicKey env) :: rest
    /\ (length (RefreshConnectionStatus (clock w) count :: more) <= 10)%nat
    /\ Forall (fun e => isCheck e = true) more
    /\ spaced (clock w) more
    /\ stopsWhenConnected (RefreshConnectionStatus (clock w) count :: more) connected
    /\ fst (initializeProfile fuel env w) <> OutOfFuel
    /\ (connected = false ->
        10000 <= clock (snd (initializeProfile fuel env w)) - clock w)
    /\ ((forall k, delay env k = 0%N) ->
        (forall i e,
           (RefreshConnectionStatus (clock w) count :: more) !! i = Some e ->
           checkedAt e = clock w + 1100 * Z.of_nat i)
        /\ (connected = false ->
            length (RefreshConnectionStatus (clock w) count :: more) = 10%nat)).
Proof.
  intros Hfuel Hq Hlatch Hflag Horigin Hname Hquiet.
  apply qualifies_true in Hq as (Hq1 & Hq2 & Hq3 & Hq4).
  destruct (initializeProfile fuel env w) as [o w'] eqn:H.
  pose proof (Hquiet AtGuard ltac:(cbn; auto)).
  pose proof (Hquiet AtSeedOrigin ltac:(cbn; auto)).
  pose proof (Hquiet AtLocalImported ltac:(cbn; auto)).
  pose proof (Hquiet AtPlaceholder ltac:(cbn; auto)).
  run_flow H.
  all: exists count, more, connected; eexists; cbn [fst snd].
  all: split; [new_events; reflexivity|].
  all: split; [cbn [length]; lia|].
  all: split; [exact Hmore|]; split; [exact Hspaced|]; split; [exact Hstops|].
  all: split; [discriminate|].
  all: split; [intros ->; cbn [clock]; exact Hverdict|].
  all: intros Hdelay; destruct (Hontime Hdelay) as [Hat Hnine].
  all: split; [exact Hat|].
  all: intros Hc; cbn [length]; rewrite (Hnine Hc); reflexivity.
Qed.

Lemma bounded_wait_then_fetch_witness :
  let w := fresh {[ SEED_ORIGIN := IMPORTED ]} in
  let env := script notFound quiet in
  exists count more connected rest,
    newEvents w (snd (initializeProfile 9 env w))
    = [GetItem PROFILE_INITIALIZED; GetItem SEED_ORIGIN; GetItem USERNAME_KEY;
       SetUsername LOADING]
      ++ (RefreshConnectionStatus (clock w) count :: more)
      ++ Fetch (publicKey env) :: rest
    /\ (length (RefreshConnectionStatus (clock w) count :: more) <= 10)%nat
    /\ Forall (fun e => isCheck e = true) more
    /\ spaced (clock w) more
    /\ stopsWhenConnected (RefreshConnectionStatus (clock w) count :: more) connected
    /\ fst (initializeProfile 9 env w) <> OutOfFuel
    /\ (connected = false ->
        10000 <= clock (snd (initializeProfile 9 env w)) - clock w)
    /\ ((forall k, delay env k = 0%N) ->
        (forall i e,
           (RefreshConnectionStatus (clock w) count :: more) !! i = Some e ->
           checkedAt e = clock w + 1100 * Z.of_nat i)
        /\ (connected = false ->
            length (RefreshConnectionStatus (clock w) count :: more) = 10%nat)).
Proof.
  apply (bounded_wait_then_fetch 9 (script notFound quiet)
           (fresh {[ SEED_ORIGIN := IMPORTED ]})).
  - lia.
  - reflexivity.
  - reflexivity.
  - vm_compute. reflexivity.
  - vm_compute. reflexivity.
  - vm_compute. reflexivity.
  - intros s _. reflexivity.
Defined.



(** The same run with a user-profile context that does not keep the name it
    fetched: the flow does not call [setUsername] with the name either, and
    the placeholder of line 183 is the username when the run ends. *)
Lemma placeholder_stays_without_reflection
    (fuel : nat) (env : Env) (w : World) (u : jsstring) :
  (9 <= fuel)%nat ->
  qualifies env = true ->
  isInitializing w = false ->
  strictEq (secureStore w !! PROFILE_INITIALIZED) TRUE = false ->
  secureStore w !! SEED_ORIGIN = Some IMPORTED ->
  usable (secureStore w !! USERNAME_KEY) = false ->
  fetchResult env = ProfileResult.make true (Some u) ->
  truthy (trim u) = true ->
  fetchReflects env = false ->
  (forall s, throws env s = false) ->
  exists w',
    initializeProfile fuel env w = (Completed u, w')
    /\ username w' = LOADING
    /\ secureStore w' !! USERNAME_KEY = Some LOADING.
Proof.
  intros Hfuel Hq Hlatch Hflag Horigin Hname Hfetch Hu Hreflect Hquiet.
  apply qualifies_true in Hq as (Hq1 & Hq2 & Hq3 & Hq4).
  assert (Hu' : truthy u = true) by (destruct u; [discriminate Hu|reflexivity]).
  destruct (initializeProfile fuel env w) as [o w'] eqn:H.
  pose proof (Hquiet AtGuard). pose proof (Hquiet AtSeedOrigin).
  pose proof (Hquiet AtLocalImported). pose proof (Hquiet AtPlaceholder).
  pose proof (Hquiet AtFetch). pose proof (Hquiet AtDeleteOrigin).
  pose proof (Hquiet AtMark).
  run_flow H.
  eexists. split; [reflexivity|]. cbn [username secureStore].
  store_lookups. auto.
Qed.

(** The input of C4, run: the name on display at the end is ["bob"]. *)
Example fetched_name_on_display :
  let '(o, w) := initializeProfile 9 (script foundBob quiet)
                   (fresh {[ SEED_ORIGIN := IMPORTED ]}) in
  o = Completed (js "bob") /\ username w = js "bob"
  /\ filter (fun e => isSetUsername e = true) (trace w) = [SetUsername (js "Loading...")].
Proof. vm_compute. repeat split; reflexivity. Qed.

(** ** Failures inside the [try] block *)

(** C1 fails on the code: with a generated origin and a publish that
    throws, the run reaches [setUserProfile] and ends with
    [profile_initialized] absent, not ["true"]. *)
Lemma publish_failure_leaves_flag_unset :
  let w := fresh {[ SEED_ORIGIN := GENERATED ]} in
  let env := script notFound publishFails in
  let w' := snd (initializeProfile 9 env w) in
  ~ (existsb isPublish (newEvents w w') = true ->
     throws env AtPublish = true ->
     secureStore w' !! PROFILE_INITIALIZED = Some TRUE).
Proof.
  intros w env w' H. specialize (H eq_refl eq_refl).
  vm_compute in H. discriminate H.
Qed.

(** C1, amended to what the code does.  In every run that reaches the
    publish of line 296 and in which that call throws: the exception is
    caught by the [catch] of line 311 and logged with [console.error];
    [setUserProfile] was called once and is not called again; the run does
    not write [profile_initialized], which is as it was before the run and
    is not ["true"]; the seed origin has been deleted; the generated tag
    stays the username; and the latch is cleared. *)
Theorem publish_failure_is_caught (fuel : nat) (env : Env) (w w' : World) (o : Outcome) :
  initializeProfile fuel env w = (o, w') ->
  existsb isPublish (newEvents w w') = true ->
  throws env AtPublish = true ->
  o = Failed
  /\ last (console w') = Some (Error "Profile initialization failed:")
  /\ filter (fun e => isPublish e = true) (newEvents w w')
     = [Publish (dummyProfile (randomGamertag env))]
  /\ secureStore w' !! PROFILE_INITIALIZED = secureStore w !! PROFILE_INITIALIZED
  /\ strictEq (secureStore w' !! PROFILE_INITIALIZED) TRUE = false
  /\ secureStore w' !! SEED_ORIGIN = None
  /\ username w' = randomGamertag env
  /\ isInitializing w' = false.
Proof.
  intros H Hpub Hthrows.
  run_flow H.
  all: cbn [console secureStore username isInitializing]; rewrite ?last_snoc.
  all: revert Hpub; new_events; among_checks; try discriminate; intros _.
  all: filter_events; store_lookups; auto 10.
Qed.

Lemma publish_failure_is_caught_witness :
  let w := fresh {[ SEED_ORIGIN := GENERATED ]} in
  let env := script notFound publishFails in
  let w' := snd (initializeProfile 9 env w) in
  fst (initializeProfile 9 env w) = Failed
  /\ last (console w') = Some (Error "Profile initialization failed:")
  /\ filter (fun e => isPublish e = true) (newEvents w w')
     = [Publish (dummyProfile (randomGamertag env))]
  /\ secureStore w' !! PROFILE_INITIALIZED = secureStore w !! PROFILE_INITIALIZED
  /\ strictEq (secureStore w' !! PROFILE_INITIALIZED) TRUE = false
  /\ secureStore w' !! SEED_ORIGIN = None
  /\ username w' = randomGamertag env
  /\ isInitializing w' = false.
Proof.
  apply (publish_failure_is_caught 9 (script notFound publishFails)
           (fresh {[ SEED_ORIGIN := GENERATED ]})).
  - apply surjective_pairing.
  - vm_compute. reflexivity.
  - reflexivity.
Defined.

(** A qualifying trigger on a world whose latch is clear and whose
    [profile_initialized] is not ["true"] passes the guard and starts the
    [try] block: after the guard's read, the next call is step 1, the read
    of [portal_seed_origin]. *)
Lemma qualifying_trigger_enters (fuel : nat) (env : Env) (w : World) :
  qualifies env = true ->
  isInitializing w = false ->
  strictEq (secureStore w !! PROFILE_INITIALIZED) TRUE = false ->
  throws env AtGuard = false ->
  exists rest,
    newEvents w (snd (initializeProfile fuel env w))
    = GetItem PROFILE_INITIALIZED :: GetItem SEED_ORIGIN :: rest.
Proof.
  intros Hq Hlatch Hflag Hguard.
  apply qualifies_true in Hq as (Hq1 & Hq2 & Hq3 & Hq4).
  destruct (initializeProfile fuel env w) as [o w'] eqn:H.
  run_flow H.
  all: cbn [snd]; new_events; eexists; reflexivity.
Qed.

(** C2 (P8, crash recovery).  When a step of the [try] block throws and
    nothing inside catches it ([setUserProfile] included), the run ends in
    the [catch] of line 311: at its end [profile_initialized] is not
    ["true"] and the latch is cleared, so the next qualifying trigger passes
    the guard and starts again from step 1. *)
Theorem failure_allows_retry (fuel : nat) (env : Env) (w w' : World) :
  initializeProfile fuel env w = (Failed, w') ->
  strictEq (secureStore w' !! PROFILE_INITIALIZED) TRUE = false
  /\ isInitializing w' = false
  /\ forall fuel2 env2,
       qualifies env2 = true ->
       throws env2 AtGuard = false ->
       exists rest,
         newEvents w' (snd (initializeProfile fuel2 env2 w'))
         = GetItem PROFILE_INITIALIZED :: GetItem SEED_ORIGIN :: rest.
Proof.
  intros H.
  assert (Hend : strictEq (secureStore w' !! PROFILE_INITIALIZED) TRUE = false
                 /\ isInitializing w' = false).
  { remember Failed as o eqn:Ho.
    run_flow H; try discriminate Ho.
    all: cbn [secureStore isInitializing]; store_lookups; auto. }
  destruct Hend as [Hflag Hlatch]. split; [exact Hflag|]. split; [exact Hlatch|].
  intros fuel2 env2 Hq Hguard.
  apply qualifying_trigger_enters; assumption.
Qed.

Lemma failure_allows_retry_witness :
  let w := fresh {[ SEED_ORIGIN := GENERATED ]} in
  let w' := snd (initializeProfile 9 (script notFound publishFails) w) in
  strictEq (secureStore w' !! PROFILE_INITIALIZED) TRUE = false
  /\ isInitializing w' = false
  /\ forall fuel2 env2,
       qualifies env2 = true ->
       throws env2 AtGuard = false ->
       exists rest,
         newEvents w' (snd (initializeProfile fuel2 env2 w'))
         = GetItem PROFILE_INITIALIZED :: GetItem SEED_ORIGIN :: rest.
Proof.
  apply (failure_allows_retry 9 (script notFound publishFails)
           (fresh {[ SEED_ORIGIN := GENERATED ]})).
  vm_compute. reflexivity.
Defined.

(** ** What a completed run leaves *)

Lemma publish_filter_existsb (l : list Event) (e : Event) :
  filter (fun e => isPublish e = true) l = [e] -> existsb isPublish l = true.
Proof.
  induction l as [|x l IH]; [discriminate|].
  cbn [existsb]. destruct (isPublish x) eqn:Hx; [reflexivity|].
  rewrite filter_cons_False by congruence. exact IH.
Qed.

Lemma one_of_four (A B C D : Prop) :
  A \/ B \/ C \/ D ->
  ~ (A /\ B) -> ~ (A /\ C) -> ~ (A /\ D) -> ~ (B /\ C) -> ~ (B /\ D) -> ~ (C /\ D) ->
  exactlyOne [A; B; C; D].
Proof.
  intros H AB AC AD BC BD CD. cbn.
  destruct H as [a|[b|[c|d]]].
  - left. split; [exact a|]. repeat constructor; intros ?; tauto.
  - right. split; [tauto|]. left. split; [exact b|].
    repeat constructor; intros ?; tauto.
  - right. split; [tauto|]. right. split; [tauto|]. left. split; [exact c|].
    repeat constructor; intros ?; tauto.
  - right. split; [tauto|]. right. split; [tauto|]. right. split; [tauto|].
    left. split; [exact d|]. constructor.
Qed.

Lemma completed_run_outcome (fuel : nat) (env : Env) (w w' : World) (cu : jsstring) :
  initializeProfile fuel env w = (Completed cu, w') ->
  secureStore w' !! PROFILE_INITIALIZED = Some TRUE
  /\ secureStore w' !! SEED_ORIGIN = None
  /\ isInitializing w' = false
  /\ (localPreserved w w' cu \/ networkAdopted env w w' cu
      \/ generatedPublished env w w' cu \/ nothingEstablished w w' cu).
Proof.
  intros H.
  remember (Completed cu) as o eqn:Ho.
  destruct (secureStore w !! USERNAME_KEY) as [stored|] eqn:Hstored.
  all: run_flow H; try discriminate Ho.
  all: injection Ho as <-.
  all: cbn [secureStore username isInitializing]; store_lookups.
  all: split; [reflexivity|]; split; [reflexivity|]; split; [reflexivity|].
  all: try match goal with
           | E : truthyOpt ?x = true |- _ =>
               destruct x eqn:?; [cbn [from_option id truthyOpt] in *|discriminate E]
           end.
  all: try match goal with
           | _ : context [orEmpty (Some ?s)] |- _ =>
               destruct s; [vm_compute in *; discriminate|cbn [orEmpty] in *]
           end.
  all: unfold localPreserved, networkAdopted, generatedPublished, nothingEstablished.
  all: cbn [secureStore username]; new_events; among_checks; filter_events;
       store_lookups; rewrite ?Hstored.
  all: first [ left; solve [auto 10]
             | right; left; solve [auto 10]
             | right; right; left; solve [auto 10]
             | right; right; right; solve [auto 10]
             | right; right; right; solve [auto 10] ].
Qed.

(** C5 fails on the code: with no seed origin and no stored username the
    run completes, and none of the three outcomes of the claim holds. *)
Lemma no_origin_no_outcome :
  let w := fresh ∅ in
  let env := script notFound quiet in
  let w' := snd (initializeProfile 9 env w) in
  fst (initializeProfile 9 env w) = Completed []
  /\ ~ (localPreserved w w' [] \/ networkAdopted env w w' []
        \/ generatedPublished env w w' []).
Proof.
  split; [vm_compute; reflexivity|].
  intros [(H & _)|[(H & _)|(_ & H & _)]]; vm_compute in H; discriminate H.
Qed.

(** C5, amended to what the code does.  After every run whose [try] block
    runs to its end, [profile_initialized] is ["true"], [portal_seed_origin]
    is absent, and exactly one of four outcomes holds: (a) the stored
    username is kept, (b) the username the network gave is the one resolved,
    (c) a generated username is set and published, or (d) nothing is
    established, which happens only when the origin is neither ["imported"]
    nor ["generated"] and there is no stored username to keep.  For an
    origin that is ["imported"] or ["generated"], exactly one of (a), (b)
    and (c) holds. *)
Theorem completed_run_postcondition
    (fuel : nat) (env : Env) (w w' : World) (currentUsername : jsstring) :
  initializeProfile fuel env w = (Completed currentUsername, w') ->
  secureStore w' !! PROFILE_INITIALIZED = Some TRUE
  /\ secureStore w' !! SEED_ORIGIN = None
  /\ exactlyOne [localPreserved w w' currentUsername;
                 networkAdopted env w w' currentUsername;
                 generatedPublished env w w' currentUsername;
                 nothingEstablished w w' currentUsername]
  /\ (strictEq (secureStore w !! SEED_ORIGIN) IMPORTED
       || strictEq (secureStore w !! SEED_ORIGIN) GENERATED = true ->
      exactlyOne [localPreserved w w' currentUsername;
                  networkAdopted env w w' currentUsername;
                  generatedPublished env w w' currentUsername]).
Proof.
  intros H.
  destruct (completed_run_outcome fuel env w w' currentUsername H)
    as (Hflag & Horigin & _ & Hone).
  split; [exact Hflag|]. split; [exact Horigin|].
  assert (Hfour : exactlyOne [localPreserved w w' currentUsername;
                              networkAdopted env w w' currentUsername;
                              generatedPublished env w w' currentUsername;
                              nothingEstablished w w' currentUsername]).
  { apply one_of_four; [exact Hone|..].
    - intros [(_ & _ & _ & _ & _ & Ha & _) (_ & Hb & _)]. congruence.
    - intros [(Ha & _) (Hc & _)]. congruence.
    - intros [(Ha & _) (Hd & _)]. congruence.
    - intros [(Hb & _) (Hc & _)]. congruence.
    - intros [(Hb & _) (Hd & _)]. congruence.
    - intros [(_ & Hc & _) (_ & _ & _ & _ & _ & _ & Hd)].
      apply publish_filter_existsb in Hc. congruence. }
  split; [exact Hfour|].
  intros Hknown.
  assert (Hd : ~ nothingEstablished w w' currentUsername).
  { intros (_ & Hi & Hg & _). rewrite Hi, Hg in Hknown. discriminate. }
  cbn in Hfour |- *.
  destruct Hfour as [[Ha Hn]|[Hna [[Hb Hn]|[Hnb [[Hc Hn]|[Hnc [[Hd' _]|[_ []]]]]]]]].
  - left. split; [exact Ha|]. inversion Hn as [|? ? ? Hn1]; subst.
    inversion Hn1; subst. repeat constructor; assumption.
  - right. split; [exact Hna|]. left. split; [exact Hb|].
    inversion Hn; subst. repeat constructor; assumption.
  - right. split; [exact Hna|]. right. split; [exact Hnb|]. left.
    split; [exact Hc|]. constructor.
  - contradiction.
Qed.

Lemma completed_run_postcondition_witness :
  let w := fresh {[ SEED_ORIGIN := IMPORTED; USERNAME_KEY := js "alice" ]} in
  let env := script notFound quiet in
  let w' := snd (initializeProfile 9 env w) in
  secureStore w' !! PROFILE_INITIALIZED = Some TRUE
  /\ secureStore w' !! SEED_ORIGIN = None
  /\ exactlyOne [localPreserved w w' (js "alice");
                 networkAdopted env w w' (js "alice");
                 generatedPublished env w w' (js "alice");
                 nothingEstablished w w' (js "alice")]
  /\ (strictEq (secureStore w !! SEED_ORIGIN) IMPORTED
       || strictEq (secureStore w !! SEED_ORIGIN) GENERATED = true ->
      exactlyOne [localPreserved w w' (js "alice");
                  networkAdopted env w w' (js "alice");
                  generatedPublished env w w' (js "alice")]).
Proof.
  apply (completed_run_postcondition 9 (script notFound quiet)
           (fresh {[ SEED_ORIGIN := IMPORTED; USERNAME_KEY := js "alice" ]})
           _ (js "alice")).
  vm_compute. reflexivity.
Defined.

(** C8 (P2, origin consumption).  After any run that gets through the
    [try] block, whichever branch it took and whatever the fetch answered,
    [portal_seed_origin] is absent from the secure store; so it is after a
    run that stopped at the re-check of line 282 because another run had
    finished, and after a run that failed at the publish or later. *)
Theorem origin_consumed (fuel : nat) (env : Env) (w w' : World) (o : Outcome) :
  initializeProfile fuel env w = (o, w') ->
  (exists currentUsername, o = Completed currentUsername)
  \/ o = Aborted
  \/ (o = Failed /\ existsb isPublish (newEvents w w') = true) ->
  secureStore w' !! SEED_ORIGIN = None.
Proof.
  intros H Ho.
  run_flow H.
  all: destruct Ho as [[? ?]|[?|[? Ho]]]; try discriminate;
    first [ cbn [secureStore]; store_lookups; reflexivity
          | revert Ho; new_events; among_checks; discriminate ].
Qed.

Lemma origin_consumed_witness :
  let w := fresh {[ SEED_ORIGIN := GENERATED ]} in
  let env := scriptWith true notFound quiet neverConnected true in
  fst (initializeProfile 9 env w) = Aborted
  /\ secureStore (snd (initializeProfile 9 env w)) !! SEED_ORIGIN = None.
Proof.
  split; [vm_compute; reflexivity|].
  apply (origin_consumed 9 (scriptWith true notFound quiet neverConnected true)
           (fresh {[ SEED_ORIGIN := GENERATED ]}) _ Aborted).
  - vm_compute. reflexivity.
  - right. left. reflexivity.
Defined.

(** ** More on the profile flow *)

(** X1.  A trigger that misses a precondition (service not initialized, no
    public key, no portalApp, sync status not idle) or that comes while a run
    is in progress is skipped: it makes no call and leaves the store, the
    username and the latch as they are. *)
Theorem unqualified_trigger_is_skipped (fuel : nat) (env : Env) (w : World) :
  qualifies env = false \/ isInitializing w = true ->
  exists w',
    initializeProfile fuel env w = (Skipped, w')
    /\ secureStore w' = secureStore w
    /\ username w' = username w
    /\ isInitializing w' = isInitializing w
    /\ trace w' = trace w.
Proof.
  intros Hpre. unfold initializeProfile.
  destruct Hpre as [Hq|Hlatch].
  - unfold qualifies in Hq.
    destruct (isInitialized env), (truthyOpt (publicKey env)), (portalApp env),
      (idle (syncStatus env)); try discriminate Hq; cbn;
      try (eexists; repeat split; reflexivity).
    all: destruct (isInitializing w) eqn:E; try discriminate Hq.
  - rewrite Hlatch.
    destruct (isInitialized env), (truthyOpt (publicKey env)), (portalApp env),
      (idle (syncStatus env)); cbn; eexists; repeat split; try reflexivity;
      cbn; congruence.
Qed.

(** X1 at a second trigger that arrives while a run holds the latch. *)
Lemma unqualified_trigger_is_skipped_witness :
  exists w',
    initializeProfile 0 (script notFound quiet)
      {| secureStore := ∅; username := []; isInitializing := true;
         clock := 0; connectedCount := 0; ticks := 0; trace := []; console := [] |}
    = (Skipped, w')
    /\ isInitializing w' = true.
Proof.
  destruct (unqualified_trigger_is_skipped 0 (script notFound quiet)
              {| secureStore := ∅; username := []; isInitializing := true;
                 clock := 0; connectedCount := 0; ticks := 0; trace := []; console := [] |})
    as (w' & Hrun & _ & _ & Hlatch & _).
  - right. reflexivity.
  - exists w'. split; [exact Hrun | exact Hlatch].
Defined.

(** What every run keeps, whatever path it takes. *)
Lemma run_invariants (fuel : nat) (env : Env) (w w' : World) (o : Outcome) (k : string) :
  initializeProfile fuel env w = (o, w') ->
  PROFILE_INITIALIZED <> k -> SEED_ORIGIN <> k -> USERNAME_KEY <> k ->
  secureStore w' !! k = secureStore w !! k
  /\ (length (filter (fun e => isFetch e = true) (newEvents w w')) <= 1)%nat
  /\ (length (filter (fun e => isPublish e = true) (newEvents w w')) <= 1)%nat
  /\ (match o with
      | Completed _ | Aborted | Failed => isInitializing w' = false
      | _ => True
      end)
  /\ (o = Aborted ->
      rivalCompletes env = true
      /\ secureStore w' !! PROFILE_INITIALIZED = Some TRUE
      /\ secureStore w' !! SEED_ORIGIN = None
      /\ existsb isPublish (newEvents w w') = false).
Proof.
  intros H Hk1 Hk2 Hk3.
  run_flow H.
  all: cbn [secureStore isInitializing].
  all: repeat match goal with
              | E : secureStore ?x = _ |- context [secureStore ?x] => rewrite E
              | E : isInitializing ?x = _ |- context [isInitializing ?x] => rewrite E
              end.
  all: split; [repeat first [ rewrite lookup_insert_ne by assumption
                            | rewrite lookup_delete_ne by assumption ]; reflexivity|].
  all: new_events; filter_events; cbn [length].
  all: split; [lia|]; split; [lia|]; split; [try reflexivity; exact I|].
  all: intros Ho; try discriminate Ho.
  all: store_lookups; among_checks; auto.
Qed.

(** X2.  The flow keeps to its three keys: whatever the run does, every
    other key of the secure store ([portal_first_launch_completed] among
    them) holds after the run what it held before. *)
Theorem other_keys_untouched (fuel : nat) (env : Env) (w : World) (k : string) :
  k <> PROFILE_INITIALIZED -> k <> SEED_ORIGIN -> k <> USERNAME_KEY ->
  secureStore (snd (initializeProfile fuel env w)) !! k = secureStore w !! k.
Proof.
  intros H1 H2 H3.
  destruct (initializeProfile fuel env w) as [o w'] eqn:H.
  apply (run_invariants fuel env w w' o k H); congruence.
Qed.

Lemma other_keys_untouched_witness :
  secureStore
    (snd (initializeProfile 9 (script notFound quiet)
            (fresh {[ SEED_ORIGIN := GENERATED; FIRST_LAUNCH_KEY := TRUE ]})))
    !! FIRST_LAUNCH_KEY
  = Some TRUE.
Proof.
  rewrite (other_keys_untouched 9 (script notFound quiet)
             (fresh {[ SEED_ORIGIN := GENERATED; FIRST_LAUNCH_KEY := TRUE ]})
             FIRST_LAUNCH_KEY);
    [vm_compute; reflexivity | discriminate | discriminate | discriminate].
Defined.

(** X3.  Every run makes at most one profile fetch and at most one profile
    publish. *)
Theorem at_most_one_fetch_and_publish (fuel : nat) (env : Env) (w : World) :
  let w' := snd (initializeProfile fuel env w) in
  (length (filter (fun e => isFetch e = true) (newEvents w w')) <= 1)%nat
  /\ (length (filter (fun e => isPublish e = true) (newEvents w w')) <= 1)%nat.
Proof.
  destruct (initializeProfile fuel env w) as [o w'] eqn:H. cbn [snd].
  destruct (run_invariants fuel env w w' o "" H) as (_ & Hf & Hp & _);
    try discriminate.
  split; assumption.
Qed.

(** X4.  The latch is cleared at the end of every run that entered the
    [try] block: one that completed, one that stopped at the re-check of
    line 282, and one that ended in the [catch]. *)
Theorem try_block_clears_latch (fuel : nat) (env : Env) (w w' : World) (o : Outcome) :
  initializeProfile fuel env w = (o, w') ->
  (exists currentUsername, o = Completed currentUsername) \/ o = Aborted \/ o = Failed ->
  isInitializing w' = false.
Proof.
  intros H Ho.
  destruct (run_invariants fuel env w w' o "" H) as (_ & _ & _ & Hl & _);
    try discriminate.
  destruct Ho as [[cu ->]|[->| ->]]; exact Hl.
Qed.

Lemma try_block_clears_latch_witness :
  let r := initializeProfile 9 (script notFound publishFails)
             (fresh {[ SEED_ORIGIN := GENERATED ]}) in
  fst r = Failed /\ isInitializing (snd r) = false.
Proof.
  split; [vm_compute; reflexivity|].
  apply (try_block_clears_latch 9 (script notFound publishFails)
           (fresh {[ SEED_ORIGIN := GENERATED ]}) _ Failed).
  - vm_compute. reflexivity.
  - right. right. reflexivity.
Defined.

(** X5.  The flow stops at the re-check of line 282 only when another run
    has marked the profile initialized in the meantime; a run that stops
    there has published nothing, and leaves [profile_initialized] at
    ["true"] and [portal_seed_origin] absent. *)
Theorem abort_only_after_rival (fuel : nat) (env : Env) (w w' : World) :
  initializeProfile fuel env w = (Aborted, w') ->
  rivalCompletes env = true
  /\ secureStore w' !! PROFILE_INITIALIZED = Some TRUE
  /\ secureStore w' !! SEED_ORIGIN = None
  /\ existsb isPublish (newEvents w w') = false.
Proof.
  intros H.
  destruct (run_invariants fuel env w w' Aborted "" H) as (_ & _ & _ & _ & Ha);
    try discriminate.
  apply Ha. reflexivity.
Qed.

Lemma abort_only_after_rival_witness :
  let env := scriptWith true notFound quiet neverConnected true in
  let w := fresh {[ SEED_ORIGIN := GENERATED ]} in
  let w' := snd (initializeProfile 9 env w) in
  rivalCompletes env = true
  /\ secureStore w' !! PROFILE_INITIALIZED = Some TRUE
  /\ secureStore w' !! SEED_ORIGIN = None
  /\ existsb isPublish (newEvents w w') = false.
Proof.
  apply (abort_only_after_rival 9 (scriptWith true notFound quiet neverConnected true)
           (fresh {[ SEED_ORIGIN := GENERATED ]})).
  vm_compute. reflexivity.
Defined.

(** X6 (lines 166 and 256-262).  Unless the seed
    origin is ["imported"], a run never fetches a profile and never checks
    relay connectivity: it makes no [fetchProfile] call and no
    [refreshConnectionStatus] call, whatever else happens. *)
Theorem only_imported_goes_to_network (fuel : nat) (env : Env) (w : World) :
  strictEq (secureStore w !! SEED_ORIGIN) IMPORTED = false ->
  let evs := newEvents w (snd (initializeProfile fuel env w)) in
  existsb isFetch evs = false /\ existsb isCheck evs = false.
Proof.
  intros Horigin.
  destruct (initializeProfile fuel env w) as [o w'] eqn:H. cbn [snd].
  run_flow H.
  all: new_events; cbn [existsb isFetch isCheck orb]; split; reflexivity.
Qed.

Lemma only_imported_goes_to_network_witness :
  let w := fresh {[ SEED_ORIGIN := GENERATED ]} in
  let evs := newEvents w (snd (initializeProfile 9 (script foundBob quiet) w)) in
  existsb isFetch evs = false /\ existsb isCheck evs = false.
Proof.
  apply (only_imported_goes_to_network 9 (script foundBob quiet)
           (fresh {[ SEED_ORIGIN := GENERATED ]})).
  vm_compute. reflexivity.
Defined.

(** X7 (lines 170-178).  With an imported origin and a
    usable stored username, a run with no failing call resolves to the
    stored name and makes exactly five calls: the guard's read, the reads of
    the origin and of the username, the delete of the origin and the write
    of the flag.  It sets no placeholder, waits for no relay, fetches and
    publishes nothing, and leaves the username as it was. *)
Theorem imported_with_local_name (fuel : nat) (env : Env) (w : World) (stored : jsstring) :
  qualifies env = true ->
  isInitializing w = false ->
  strictEq (secureStore w !! PROFILE_INITIALIZED) TRUE = false ->
  secureStore w !! SEED_ORIGIN = Some IMPORTED ->
  secureStore w !! USERNAME_KEY = Some stored ->
  usable (Some stored) = true ->
  (forall s, In s [AtGuard; AtSeedOrigin; AtLocalImported; AtDeleteOrigin; AtMark] ->
             throws env s = false) ->
  exists w',
    initializeProfile fuel env w = (Completed stored, w')
    /\ newEvents w w'
       = [GetItem PROFILE_INITIALIZED; GetItem SEED_ORIGIN; GetItem USERNAME_KEY;
          DeleteItem SEED_ORIGIN; SetItem PROFILE_INITIALIZED TRUE]
    /\ username w' = username w
    /\ secureStore w' !! USERNAME_KEY = Some stored
    /\ secureStore w' !! PROFILE_INITIALIZED = Some TRUE
    /\ clock w' = clock w.
Proof.
  intros Hq Hlatch Hflag Horigin Hname Husable Hquiet.
  apply qualifies_true in Hq as (Hq1 & Hq2 & Hq3 & Hq4).
  assert (Hblank : truthy (trim stored) = true).
  { unfold usable in Husable. cbn in Husable.
    apply andb_prop in Husable as [Husable _].
    apply andb_prop in Husable as [_ Husable]. exact Husable. }
  destruct (initializeProfile fuel env w) as [o w'] eqn:H.
  pose proof (Hquiet AtGuard ltac:(cbn; auto)).
  pose proof (Hquiet AtSeedOrigin ltac:(cbn; auto)).
  pose proof (Hquiet AtLocalImported ltac:(cbn; auto)).
  pose proof (Hquiet AtDeleteOrigin ltac:(cbn; auto)).
  pose proof (Hquiet AtMark ltac:(cbn; auto 10)).
  run_flow H.
  eexists. split; [reflexivity|]. cbn [secureStore username clock].
  store_lookups. new_events. auto 10.
Qed.

Lemma imported_with_local_name_witness :
  let w := fresh {[ SEED_ORIGIN := IMPORTED; USERNAME_KEY := js "alice" ]} in
  exists w',
    initializeProfile 9 (script foundBob quiet) w = (Completed (js "alice"), w')
    /\ newEvents w w'
       = [GetItem PROFILE_INITIALIZED; GetItem SEED_ORIGIN; GetItem USERNAME_KEY;
          DeleteItem SEED_ORIGIN; SetItem PROFILE_INITIALIZED TRUE]
    /\ username w' = username w
    /\ secureStore w' !! USERNAME_KEY = Some (js "alice")
    /\ secureStore w' !! PROFILE_INITIALIZED = Some TRUE
    /\ clock w' = clock w.
Proof.
  apply (imported_with_local_name 9 (script foundBob quiet)
           (fresh {[ SEED_ORIGIN := IMPORTED; USERNAME_KEY := js "alice" ]}) (js "alice")).
  - reflexivity.
  - reflexivity.
  - vm_compute. reflexivity.
  - vm_compute. reflexivity.
  - vm_compute. reflexivity.
  - vm_compute. reflexivity.
  - intros s _. reflexivity.
Defined.

(** X8 (the inner [catch], lines 238-254 and 268-304).
    With an imported origin and no usable stored username, when
    [fetchProfile] throws or resolves without a usable name and no other
    call fails, the run recovers by itself: it clears the placeholder, sets
    the generated tag as username, publishes its profile once, and
    completes with [profile_initialized] at ["true"]. *)
Theorem fetch_miss_falls_back (fuel : nat) (env : Env) (w : World) :
  (9 <= fuel)%nat ->
  qualifies env = true ->
  isInitializing w = false ->
  strictEq (secureStore w !! PROFILE_INITIALIZED) TRUE = false ->
  secureStore w !! SEED_ORIGIN = Some IMPORTED ->
  usable (secureStore w !! USERNAME_KEY) = false ->
  throws env AtFetch = true
  \/ ProfileResult.found (fetchResult env)
     && truthyOpt (ProfileResult.username (fetchResult env)) = false ->
  (forall s, s <> AtFetch -> throws env s = false) ->
  rivalCompletes env = false ->
  exists w',
    initializeProfile fuel env w = (Completed [], w')
    /\ filter (fun e => isSetUsername e = true) (newEvents w w')
       = [SetUsername LOADING; SetUsername []; SetUsername (randomGamertag env)]
    /\ filter (fun e => isPublish e = true) (newEvents w w')
       = [Publish (dummyProfile (randomGamertag env))]
    /\ username w' = randomGamertag env
    /\ secureStore w' !! USERNAME_KEY = Some (randomGamertag env)
    /\ secureStore w' !! PROFILE_INITIALIZED = Some TRUE.
Proof.
  intros Hfuel Hq Hlatch Hflag Horigin Hname Hmiss Hquiet Hrival.
  apply qualifies_true in Hq as (Hq1 & Hq2 & Hq3 & Hq4).
  destruct (initializeProfile fuel env w) as [o w'] eqn:H.
  pose proof (Hquiet AtGuard ltac:(discriminate)).
  pose proof (Hquiet AtSeedOrigin ltac:(discriminate)).
  pose proof (Hquiet AtLocalImported ltac:(discriminate)).
  pose proof (Hquiet AtPlaceholder ltac:(discriminate)).
  pose proof (Hquiet AtClearNotFound ltac:(discriminate)).
  pose proof (Hquiet AtClearError ltac:(discriminate)).
  pose proof (Hquiet AtDeleteOrigin ltac:(discriminate)).
  pose proof (Hquiet AtRecheck ltac:(discriminate)).
  pose proof (Hquiet AtSetGamertag ltac:(discriminate)).
  pose proof (Hquiet AtPublish ltac:(discriminate)).
  pose proof (Hquiet AtMark ltac:(discriminate)).
  run_flow H.
  all: try (destruct Hmiss as [Hmiss|Hmiss]; [congruence|];
            rewrite ?Heqb, ?Heqb0 in Hmiss; cbn in Hmiss; congruence).
  all: eexists; (split; [reflexivity|]); cbn [secureStore username];
       new_events; filter_events; store_lookups; auto 10.
Qed.

Lemma fetch_miss_falls_back_witness :
  let env := script notFound (fun s => match s with AtFetch => true | _ => false end) in
  let w := fresh {[ SEED_ORIGIN := IMPORTED ]} in
  exists w',
    initializeProfile 9 env w = (Completed [], w')
    /\ filter (fun e => isSetUsername e = true) (newEvents w w')
       = [SetUsername LOADING; SetUsername []; SetUsername (randomGamertag env)]
    /\ filter (fun e => isPublish e = true) (newEvents w w')
       = [Publish (dummyProfile (randomGamertag env))]
    /\ username w' = randomGamertag env
    /\ secureStore w' !! USERNAME_KEY = Some (randomGamertag env)
    /\ secureStore w' !! PROFILE_INITIALIZED = Some TRUE.
Proof.
  apply (fetch_miss_falls_back 9
           (script notFound (fun s => match s with AtFetch => true | _ => false end))
           (fresh {[ SEED_ORIGIN := IMPORTED ]})).
  - lia.
  - reflexivity.
  - reflexivity.
  - vm_compute. reflexivity.
  - vm_compute. reflexivity.
  - vm_compute. reflexivity.
  - left. reflexivity.
  - intros s Hs. destruct s; try reflexivity. contradiction.
  - reflexivity.
Defined.

(** X9.  A publish that failed is never made again.  After a run with a
    generated origin in which [setUserProfile] threw, the origin is gone and
    the generated tag is the stored username, so the next qualifying run
    (with no failing call) takes the non-imported branch, finds the tag,
    publishes nothing and sets [profile_initialized] to ["true"]: the flow
    ends initialized although no profile was ever published. *)
Theorem failed_publish_is_not_retried
    (fuel fuel2 : nat) (env env2 : Env) (w : World) :
  qualifies env = true ->
  isInitializing w = false ->
  strictEq (secureStore w !! PROFILE_INITIALIZED) TRUE = false ->
  secureStore w !! SEED_ORIGIN = Some GENERATED ->
  truthy (trim (orEmpty (secureStore w !! USERNAME_KEY))) = false ->
  throws env AtPublish = true ->
  (forall s, s <> AtPublish -> throws env s = false) ->
  rivalCompletes env = false ->
  truthy (trim (randomGamertag env)) = true ->
  qualifies env2 = true ->
  (forall s, throws env2 s = false) ->
  exists w1 w2,
    initializeProfile fuel env w = (Failed, w1)
    /\ initializeProfile fuel2 env2 w1 = (Completed (randomGamertag env), w2)
    /\ existsb isPublish (newEvents w1 w2) = false
    /\ existsb isSetUsername (newEvents w1 w2) = false
    /\ username w2 = randomGamertag env
    /\ secureStore w2 !! PROFILE_INITIALIZED = Some TRUE.
Proof.
  intros Hq Hlatch Hflag Horigin Hname Hpub Hquiet Hrival Htag Hq2 Hquiet2.
  apply qualifies_true in Hq as (Hq1 & Hq3 & Hq4 & Hq5).
  apply qualifies_true in Hq2 as (Hr1 & Hr2 & Hr3 & Hr4).
  destruct (initializeProfile fuel env w) as [o w1] eqn:H.
  pose proof (Hquiet AtGuard ltac:(discriminate)).
  pose proof (Hquiet AtSeedOrigin ltac:(discriminate)).
  pose proof (Hquiet AtLocalOther ltac:(discriminate)).
  pose proof (Hquiet AtDeleteOrigin ltac:(discriminate)).
  pose proof (Hquiet AtRecheck ltac:(discriminate)).
  pose proof (Hquiet AtSetGamertag ltac:(discriminate)).
  run_flow H.
  match goal with |- exists w1 w2, (_, ?x) = _ /\ _ => exists x end.
  match goal with
  | |- exists w2, _ /\ initializeProfile ?f ?e ?x = _ /\ _ =>
      destruct (initializeProfile f e x) as [o2 w2] eqn:Hrun2
  end.
  pose proof (Hquiet2 AtGuard). pose proof (Hquiet2 AtSeedOrigin).
  pose proof (Hquiet2 AtLocalOther). pose proof (Hquiet2 AtDeleteOrigin).
  pose proof (Hquiet2 AtMark).
  assert (Htag' : orEmpty (Some (randomGamertag env)) = randomGamertag env).
  { destruct (randomGamertag env); [discriminate Htag|reflexivity]. }
  assert (Htag2 : truthy (trim (orEmpty (Some (randomGamertag env)))) = true).
  { rewrite Htag'. exact Htag. }
  run_flow Hrun2.
  rewrite Htag'. eexists. split; [reflexivity|]. split; [reflexivity|].
  cbn [secureStore username]. store_lookups.
  unfold newEvents. cbn [trace].
  match goal with |- context [drop (length ?t) _] => generalize t; intros before end.
  rewrite <- ?app_assoc, ?drop_app_length. cbn [app]. auto 10.
Qed.

Lemma failed_publish_is_not_retried_witness :
  let env := script notFound publishFails in
  let w := fresh {[ SEED_ORIGIN := GENERATED ]} in
  exists w1 w2,
    initializeProfile 9 env w = (Failed, w1)
    /\ initializeProfile 9 (script foundBob quiet) w1 = (Completed (randomGamertag env), w2)
    /\ existsb isPublish (newEvents w1 w2) = false
    /\ existsb isSetUsername (newEvents w1 w2) = false
    /\ username w2 = randomGamertag env
    /\ secureStore w2 !! PROFILE_INITIALIZED = Some TRUE.
Proof.
  apply (failed_publish_is_not_retried 9 9 (script notFound publishFails)
           (script foundBob quiet) (fresh {[ SEED_ORIGIN := GENERATED ]})).
  - reflexivity.
  - reflexivity.
  - vm_compute. reflexivity.
  - vm_compute. reflexivity.
  - vm_compute. reflexivity.
  - reflexivity.
  - intros s Hs. destruct s; try reflexivity. contradiction.
  - reflexivity.
  - vm_compute. reflexivity.
  - reflexivity.
  - intros s. reflexivity.
Defined.

(** ** More on the wait *)

(** X10.  What the answer of [waitForRelayConnection] means.  It answers
    [true] only with a connected relay in the summary it last read, and
    [false] only once [maxWait] (10 s) or more have passed since it started:
    it never gives up early. *)
Theorem wait_verdict (fuel : nat) (env : Env) (w w' : World) (connected : bool) :
  waitForRelayConnection fuel env w = (Done connected, w') ->
  if connected then 0 < connectedCount w' else maxWait <= clock w' - clock w.
Proof.
  unfold waitForRelayConnection. run_m.
  destruct (Z.ltb_spec 0 (relays env (ticks w))) as [Hpos|Hneg].
  - run_m. intros [= <- <-]. exact Hpos.
  - intros H. exact (pollRelays_verdict env (clock w) fuel _ _ _ H).
Qed.

Lemma wait_verdict_witness :
  let r := waitForRelayConnection 9 (script notFound quiet) (fresh ∅) in
  fst r = Done false /\ maxWait <= clock (snd r) - clock (fresh ∅).
Proof.
  split; [vm_compute; reflexivity|].
  apply (wait_verdict 9 (script notFound quiet) (fresh ∅) _ false).
  vm_compute. reflexivity.
Defined.

(** ** The texts of the Home screen header *)

Lemma substring_prefix (s : jsstring) (n : Z) :
  0 <= n -> substring s 0 n = take (Z.to_nat n) s.
Proof.
  intros Hn. unfold substring.
  set (len := Z.of_nat (length s)).
  assert (Hlen : len = Z.of_nat (length s)) by reflexivity. clearbody len.
  replace (Z.to_nat (Z.min (Z.max 0 (Z.min 0 len)) (Z.max 0 (Z.min n len))))
    with 0%nat by lia.
  rewrite drop_0.
  destruct (Z.le_ge_cases n len) as [Hle|Hge].
  - f_equal. lia.
  - rewrite !take_ge by lia. reflexivity.
Qed.

Lemma substringFrom_suffix (s : jsstring) (i : Z) :
  substringFrom s i = drop (Z.to_nat i) s.
Proof.
  unfold substringFrom, substring.
  set (len := Z.of_nat (length s)).
  assert (Hlen : len = Z.of_nat (length s)) by reflexivity. clearbody len.
  rewrite take_ge by (rewrite length_drop; lia).
  destruct (Z.le_ge_cases i len) as [Hle|Hge].
  - f_equal. lia.
  - rewrite !drop_ge by lia. reflexivity.
Qed.

Lemma nameCharsToShow_range (screenWidth : Q) :
  8 <= nameCharsToShow screenWidth <= 22.
Proof. unfold nameCharsToShow. repeat case_match; lia. Qed.

Lemma keyCharsToShow_range (screenWidth : Q) :
  8 <= keyCharsToShow screenWidth <= 22.
Proof. unfold keyCharsToShow. repeat case_match; lia. Qed.

Lemma ELLIPSIS_length : length ELLIPSIS = 3%nat.
Proof. reflexivity. Qed.

(** X11.  The username shown in the header always fits: whatever the screen
    width and the name, [truncatedUsername] is at most [charsToShow] code
    units long (so at most 22).  A name that fits is shown as it is; a longer
    one is cut to its first [charsToShow - 3] code units followed by
    ["..."], [charsToShow] code units in all. *)
Theorem truncatedUsername_fits (screenWidth : Q) (username : jsstring) :
  let n := nameCharsToShow screenWidth in
  let shown := truncatedUsername screenWidth username in
  Z.of_nat (length shown) <= n
  /\ (Z.of_nat (length username) <= n -> shown = username)
  /\ (n < Z.of_nat (length username) ->
      shown = take (Z.to_nat (n - 3)) username ++ ELLIPSIS
      /\ Z.of_nat (length shown) = n).
Proof.
  cbn zeta. unfold truncatedUsername.
  pose proof (nameCharsToShow_range screenWidth) as Hn.
  set (n := nameCharsToShow screenWidth) in *.
  destruct username as [|c rest]; [cbn; repeat split; intros; (lia || reflexivity)|].
  cbn [truthy negb].
  destruct (Z.gtb_spec (Z.of_nat (length (c :: rest))) n) as [Hgt|Hle].
  - rewrite substring_prefix by lia.
    assert (Hlen : Z.of_nat (length (take (Z.to_nat (n - 3)) (c :: rest) ++ ELLIPSIS)) = n).
    { rewrite length_app, length_take, ELLIPSIS_length. lia. }
    repeat split; intros; (lia || reflexivity).
  - repeat split; intros; (lia || reflexivity).
Qed.

(** X12.  Truncating is idempotent: a name already truncated for a width is
    shown unchanged when truncated again for that width. *)
Theorem truncatedUsername_idempotent (screenWidth : Q) (username : jsstring) :
  truncatedUsername screenWidth (truncatedUsername screenWidth username)
  = truncatedUsername screenWidth username.
Proof.
  destruct (truncatedUsername_fits screenWidth username) as (Hfit & _).
  destruct (truncatedUsername_fits screenWidth (truncatedUsername screenWidth username))
    as (_ & Hsame & _).
  apply Hsame. exact Hfit.
Qed.

(** X13.  For a key of at least [charsToShow] code units,
    [truncatedPublicKey] is the first [charsToShow] code units of the key,
    ["..."], and its last [charsToShow] code units: [2 * charsToShow + 3]
    code units in all, whatever the length of the key. *)
Theorem truncatedPublicKey_ends (screenWidth : Q) (userPublicKey : jsstring) :
  let n := keyCharsToShow screenWidth in
  n <= Z.of_nat (length userPublicKey) ->
  truncatedPublicKey screenWidth userPublicKey
  = take (Z.to_nat n) userPublicKey ++ ELLIPSIS
    ++ drop (length userPublicKey - Z.to_nat n) userPublicKey
  /\ Z.of_nat (length (truncatedPublicKey screenWidth userPublicKey)) = 2 * n + 3.
Proof.
  cbn zeta. intros Hlen. unfold truncatedPublicKey.
  pose proof (keyCharsToShow_range screenWidth) as Hn.
  set (n := keyCharsToShow screenWidth) in *.
  destruct userPublicKey as [|c rest]; [cbn in Hlen; lia|].
  cbn [truthy negb].
  rewrite substring_prefix by lia. rewrite substringFrom_suffix.
  replace (Z.to_nat (Z.of_nat (length (c :: rest)) - n))
    with (length (c :: rest) - Z.to_nat n)%nat by lia.
  split; [reflexivity|].
  rewrite !length_app, length_take, length_drop, ELLIPSIS_length. lia.
Qed.

Lemma truncatedPublicKey_ends_witness :
  let key := js "npub1qqqqqqqqqqqqqqqqqqqqqqqqqqqqqqqqqqqqqqqqqqqqqqqqqqqsk4lgw0" in
  truncatedPublicKey (inject_Z 390) key
  = take 14 key ++ ELLIPSIS ++ drop (length key - 14) key
  /\ Z.of_nat (length (truncatedPublicKey (inject_Z 390) key)) = 31.
Proof.
  apply (truncatedPublicKey_ends (inject_Z 390)
           (js "npub1qqqqqqqqqqqqqqqqqqqqqqqqqqqqqqqqqqqqqqqqqqqqqqqqqqqsk4lgw0")).
  vm_compute. discriminate.
Defined.

(** X14.  A key shorter than [2 * charsToShow + 3] code units is not
    shortened: the text shown is at least as long as the key.  A key of at
    most [charsToShow] code units (such as the initial ['unknown pubkey'] on
    a wide screen) is shown whole twice, on both sides of the ["..."]. *)
Theorem truncatedPublicKey_short (screenWidth : Q) (userPublicKey : jsstring) :
  let n := keyCharsToShow screenWidth in
  truthy userPublicKey = true ->
  (Z.of_nat (length userPublicKey) <= n ->
   truncatedPublicKey screenWidth userPublicKey
   = userPublicKey ++ ELLIPSIS ++ userPublicKey)
  /\ (Z.of_nat (length userPublicKey) <= 2 * n + 3 ->
      (length userPublicKey <= length (truncatedPublicKey screenWidth userPublicKey))%nat).
Proof.
  cbn zeta. intros Hkey. unfold truncatedPublicKey. rewrite Hkey. cbn [negb].
  pose proof (keyCharsToShow_range screenWidth) as Hn.
  set (n := keyCharsToShow screenWidth) in *.
  rewrite substring_prefix by lia. rewrite substringFrom_suffix.
  split.
  - intros Hlen. rewrite take_ge by lia.
    replace (Z.to_nat (Z.of_nat (length userPublicKey) - n)) with 0%nat by lia.
    reflexivity.
  - intros Hlen. rewrite !length_app, length_take, length_drop, ELLIPSIS_length. lia.
Qed.

Lemma truncatedPublicKey_short_witness :
  let key := js "unknown pubkey" in
  truncatedPublicKey (inject_Z 430) key = key ++ ELLIPSIS ++ key
  /\ (length key <= length (truncatedPublicKey (inject_Z 430) key))%nat.
Proof.
  destruct (truncatedPublicKey_short (inject_Z 430) (js "unknown pubkey")) as [Hwhole Hlong].
  - reflexivity.
  - split; [apply Hwhole | apply Hlong]; vm_compute; discriminate.
Defined.

Example unknown_pubkey_shown_twice :
  truncatedPublicKey (inject_Z 430) (userPublicKey (mount (fresh ∅)))
  = js "unknown pubkey...unknown pubkey".
Proof. vm_compute. reflexivity. Qed.

(** ** The welcome card and the refresh of the Home screen *)

(** X15.  Once the welcome is marked as viewed it stays so: after
    [markWelcomeAsViewed] has resolved on a mounted screen, the welcome is
    off, and a later mount of the screen over the same store, with any run
    of the profile flow in between, finds [isFirstLaunch] false again. *)
Theorem welcome_marked_stays_marked (h : Home) (fuel : nat) (env : Env) :
  isMounted h = true ->
  let h1 := markWelcomeAsViewed false h in
  isFirstLaunch h1 = Some false
  /\ isFirstLaunch (checkFirstLaunch false (mount (world h1))) = Some false
  /\ isFirstLaunch
       (checkFirstLaunch false
          (mount (snd (initializeProfile fuel env (world h1))))) = Some false.
Proof.
  intros Hm. cbn zeta. unfold markWelcomeAsViewed, attempt. rewrite Hm.
  cbn. split; [reflexivity|].
  unfold checkFirstLaunch, attempt. cbn.
  rewrite lookup_insert_eq. split; [reflexivity|].
  match goal with
  | |- context [initializeProfile fuel env ?w1] =>
      destruct (initializeProfile fuel env w1) as [o w2] eqn:H;
      destruct (run_invariants fuel env w1 w2 o FIRST_LAUNCH_KEY H) as (Hk & _);
      try discriminate
  end.
  cbn [snd]. rewrite Hk. cbn. rewrite lookup_insert_eq. reflexivity.
Qed.

Lemma welcome_marked_stays_marked_witness :
  let h1 := markWelcomeAsViewed false (mount (fresh {[ SEED_ORIGIN := GENERATED ]})) in
  isFirstLaunch h1 = Some false
  /\ isFirstLaunch (checkFirstLaunch false (mount (world h1))) = Some false
  /\ isFirstLaunch
       (checkFirstLaunch false
          (mount (snd (initializeProfile 9 (script notFound quiet) (world h1)))))
     = Some false.
Proof.
  apply (welcome_marked_stays_marked (mount (fresh {[ SEED_ORIGIN := GENERATED ]})) 9
           (script notFound quiet)).
  reflexivity.
Defined.

(** X16.  [markWelcomeAsViewed] never throws and marks nothing by halves:
    on an unmounted screen it does nothing at all, and when the write
    rejects the store and [isFirstLaunch] are as before and the failure is
    logged, so the welcome shows again at the next launch. *)
Theorem welcome_mark_failure (rejects : bool) (h : Home) :
  rejects = true \/ isMounted h = false ->
  let h' := markWelcomeAsViewed rejects h in
  secureStore (world h') = secureStore (world h)
  /\ isFirstLaunch h' = isFirstLaunch h
  /\ (isMounted h = false -> h' = h)
  /\ (isMounted h = true ->
      last (console (world h')) = Some (Error "Failed to mark welcome as viewed:")).
Proof.
  intros Hcase. cbn zeta. unfold markWelcomeAsViewed, attempt.
  destruct (isMounted h) eqn:Hm.
  - destruct Hcase as [->|Hf]; [|discriminate Hf]. cbn.
    rewrite last_snoc. repeat split; (reflexivity || discriminate).
  - repeat split; (reflexivity || discriminate).
Qed.

Lemma welcome_mark_failure_witness :
  let h := mount (fresh ∅) in
  let h' := markWelcomeAsViewed true h in
  secureStore (world h') = secureStore (world h)
  /\ isFirstLaunch h' = isFirstLaunch h
  /\ last (console (world h')) = Some (Error "Failed to mark welcome as viewed:").
Proof.
  destruct (welcome_mark_failure true (mount (fresh ∅))) as (Hstore & Hfirst & _ & Hlog).
  - left. reflexivity.
  - split; [exact Hstore | split; [exact Hfirst | apply Hlog; reflexivity]].
Defined.

(** X17.  After the service effect of a fresh mount, the Home screen shows
    only its loader exactly when onboarding is still loading or the read of
    the first-launch flag threw: a failed read is logged and leaves
    [isFirstLaunch] at [null]. *)
Theorem loader_after_service_effect (isLoading rejects : bool) (env : Env) (w : World) :
  showsLoader isLoading (serviceEffect env rejects (mount w)) = isLoading || rejects.
Proof.
  unfold showsLoader, serviceEffect, checkFirstLaunch, attempt. cbn.
  destruct rejects; cbn; reflexivity.
Qed.

(** X18.  A QR scan always navigates to the scanner, and marks the welcome
    as viewed only on a first launch: while [isFirstLaunch] is [null] or
    [false] the scan writes nothing to the store and makes no store call. *)
Theorem qr_scan_marks_only_first_launch (rejects : bool) (h : Home) :
  let h' := handleQrScan rejects h in
  calls h' = calls h ++ [RouterReplaceQr (clock (world h))]
  /\ (isFirstLaunch h <> Some true -> world h' = world h /\ isFirstLaunch h' = isFirstLaunch h)
  /\ (isFirstLaunch h = Some true -> isMounted h = true -> rejects = false ->
      secureStore (world h') !! FIRST_LAUNCH_KEY = Some TRUE
      /\ isFirstLaunch h' = Some false).
Proof.
  cbn zeta. unfold handleQrScan, markWelcomeAsViewed, attempt. cbn.
  destruct (isFirstLaunch h) as [[|]|] eqn:Hf; cbn.
  - destruct (isMounted h) eqn:Hm; [destruct rejects|]; cbn;
      (split; [reflexivity|]); (split; [congruence|]); intros; try discriminate.
    rewrite lookup_insert_eq. split; reflexivity.
  - split; [reflexivity|]. split; [auto|]. discriminate.
  - split; [reflexivity|]. split; [auto|]. discriminate.
Qed.

(** X19.  A pull-to-refresh always ends with [refreshing] false, also when
    a refresh rejects: the rejection is caught and logged.  The wallet (NWC)
    status is refreshed only after the relay status refresh has resolved. *)
Theorem refresh_always_ends (relaysReject nwcRejects : bool) (h : Home) :
  let h' := onRefresh relaysReject nwcRejects h in
  refreshing h' = false
  /\ calls h' = calls h ++ RefreshRelays :: (if relaysReject then [] else [RefreshNwc])
  /\ console (world h')
     = console (world h)
       ++ (if relaysReject || nwcRejects
           then [Error "Error refreshing connection status:"] else [])
  /\ secureStore (world h') = secureStore (world h).
Proof.
  cbn zeta. unfold onRefresh.
  destruct relaysReject, nwcRejects; cbn; rewrite <- ?app_assoc, ?app_nil_r;
    repeat split; reflexivity.
Qed.

(** ** The Settings screen *)

Lemma trimStart_clean (s : jsstring) : startsWithSpace (trimStart s) = false.
Proof.
  induction s as [|c s IH]; [reflexivity|].
  cbn [trimStart]. destruct (isWhiteSpace c) eqn:Hc; [exact IH|].
  cbn. exact Hc.
Qed.

Lemma trimStart_suffix (s : jsstring) : exists p, s = p ++ trimStart s.
Proof.
  induction s as [|c s [p IH]]; [exists []; reflexivity|].
  cbn [trimStart]. destruct (isWhiteSpace c).
  - exists (c :: p). cbn. f_equal. exact IH.
  - exists []. reflexivity.
Qed.

Lemma trimStart_id (s : jsstring) : startsWithSpace s = false -> trimStart s = s.
Proof. destruct s as [|c s]; [reflexivity|]. cbn. intros ->. reflexivity. Qed.

Lemma trimEnd_prefix (s : jsstring) : exists q, s = trimEnd s ++ q.
Proof.
  unfold trimEnd. destruct (trimStart_suffix (rev s)) as [p Hp].
  exists (rev p). rewrite <- rev_app_distr, <- Hp, rev_involutive. reflexivity.
Qed.

Lemma trimEnd_clean (s : jsstring) : endsWithSpace (trimEnd s) = false.
Proof.
  unfold endsWithSpace, trimEnd. rewrite rev_involutive. apply trimStart_clean.
Qed.

Lemma trimEnd_id (s : jsstring) : endsWithSpace s = false -> trimEnd s = s.
Proof.
  unfold endsWithSpace, trimEnd. intros H.
  rewrite trimStart_id by exact H. apply rev_involutive.
Qed.

(** What [trim] returns has no white space at either end, and trimming it
    again changes nothing. *)
Lemma trim_clean (s : jsstring) :
  startsWithSpace (trim s) = false
  /\ endsWithSpace (trim s) = false
  /\ trim (trim s) = trim s.
Proof.
  assert (Hstart : startsWithSpace (trim s) = false).
  { unfold trim. pose proof (trimStart_clean s) as Hc.
    destruct (trimEnd_prefix (trimStart s)) as [q Hq].
    destruct (trimEnd (trimStart s)) as [|c t] eqn:Ht; [reflexivity|].
    rewrite Hq in Hc. exact Hc. }
  assert (Hend : endsWithSpace (trim s) = false) by apply trimEnd_clean.
  split; [exact Hstart|]. split; [exact Hend|].
  unfold trim at 1. rewrite trimStart_id by exact Hstart.
  apply trimEnd_id. exact Hend.
Qed.

(** X20.  [handleWalletUrlSubmit] announces only usable URLs: whatever the
    input, every URL it emits is not blank and has no white space at either
    end, so the [walletUrlChanged] listener of the screen takes it as a
    connection.  A blank input emits nothing, changes nothing and shows one
    error alert. *)
Theorem wallet_url_emitted_trimmed (emitThrows : bool) (s : Settings) :
  let s' := handleWalletUrlSubmit emitThrows s in
  (forall url, In url (emitted s') -> ~ In url (emitted s) ->
     truthy url = true
     /\ startsWithSpace url = false
     /\ endsWithSpace url = false
     /\ walletUrlListener (Some url) = true)
  /\ (truthy (trim (walletUrl s)) = false ->
      emitted s' = emitted s
      /\ walletUrl s' = walletUrl s
      /\ isConnected s' = isConnected s
      /\ alerts s' = alerts s ++ [Alert "Error" "Please enter a valid URL"]).
Proof.
  cbn zeta. unfold handleWalletUrlSubmit.
  destruct (truthy (trim (walletUrl s))) eqn:Hurl; cbn [negb].
  - split; [|discriminate].
    intros url Hin Hnew.
    assert (Hu : url = trim (walletUrl s)).
    { destruct emitThrows; cbn in Hin; apply in_app_or in Hin as [Hin|[<-|[]]];
        (contradiction || reflexivity). }
    subst url. destruct (trim_clean (walletUrl s)) as (H1 & H2 & H3).
    unfold walletUrlListener. cbn. rewrite H3. auto.
  - split; [|intros _; cbn; auto].
    intros url Hin Hnew. cbn in Hin. contradiction.
Qed.

(** X21.  Saving the profile always ends with the spinner off and exactly
    one alert: "Success" when [setUsername] resolved, "Error" when it
    rejected, in which case the username is as before.  What is saved is
    not the trimmed input: [trim()] is only the test of line 106.  A blank
    input is saved as the empty username; any other input is saved with its
    first code unit put through [toUpperCase] and the rest as typed, white
    space at either end included. *)
Theorem save_profile_outcome
    (toUpperCase : jsstring -> jsstring) (rejects : bool) (s : Settings) :
  let s' := handleSaveProfile toUpperCase rejects s in
  profileIsLoading s' = false
  /\ (rejects = false ->
      alerts s' = alerts s ++ [Alert "Success" "Profile updated successfully"]
      /\ secureStore (profile s') !! USERNAME_KEY = Some (username (profile s'))
      /\ (truthy (trim (usernameInput s)) = false -> username (profile s') = [])
      /\ (truthy (trim (usernameInput s)) = true ->
          exists c rest,
            usernameInput s = c :: rest
            /\ username (profile s') = toUpperCase [c] ++ rest))
  /\ (rejects = true ->
      alerts s' = alerts s ++ [Alert "Error" "Failed to save profile. Please try again."]
      /\ username (profile s') = username (profile s)
      /\ secureStore (profile s') = secureStore (profile s)).
Proof.
  cbn zeta. unfold handleSaveProfile, setUsernameOr, attempt.
  destruct rejects; cbn.
  - split; [reflexivity|]. split; [discriminate|]. auto.
  - split; [reflexivity|]. split; [|discriminate].
    intros _. rewrite lookup_insert_eq.
    split; [reflexivity|]. split; [reflexivity|].
    unfold capitalizedUsername. split.
    + intros ->. reflexivity.
    + intros Hinput. rewrite Hinput.
      destruct (usernameInput s) as [|c rest]; [discriminate Hinput|].
      exists c, rest. split; reflexivity.
Qed.

(** An input with white space around it is saved with it: the first code
    unit is a space, which [toUpperCase] leaves as it is. *)
Example save_profile_keeps_spaces :
  capitalizedUsername (fun s => s) (js " bob ") = js " bob ".
Proof. vm_compute. reflexivity. Qed.

(** X22.  Clearing the app data goes step by step and stops at the first
    call that throws: the database is reset only after the mnemonic has been
    deleted, and onboarding only after the database; the calls made are a
    prefix of the five, and the error alert is shown exactly when one of the
    calls made threw. *)
Theorem clear_data_stops_at_first_failure (fails : ResetStep -> bool) (s : Settings) :
  let all := [ClearUsername; ClearAvatar; DeleteMnemonic; ResetDatabase; ResetOnboarding] in
  let s' := clearData fails s in
  exists n,
    resetSteps s' = resetSteps s ++ take n all
    /\ (forall k, In k (take (n - 1) all) -> fails k = false)
    /\ (alerts s' = alerts s
        /\ n = 5%nat /\ (forall k, In k all -> fails k = false)
        \/ alerts s' = alerts s ++ [Alert "Error" "Failed to Reset App. Please try again."]
           /\ exists k, all !! (n - 1)%nat = Some k /\ fails k = true).
Proof.
  cbn zeta. unfold clearData, setUsernameOr, attempt.
  destruct (fails ClearUsername) eqn:H1; cbn.
  { exists 1%nat. cbn. split; [reflexivity|]. split; [intros k []|].
    right. split; [reflexivity|]. exists ClearUsername. auto. }
  destruct (fails ClearAvatar) eqn:H2; cbn.
  { exists 2%nat. cbn. rewrite <- app_assoc. split; [reflexivity|].
    split; [intros k [<-|[]]; assumption|].
    right. split; [reflexivity|]. exists ClearAvatar. auto. }
  destruct (fails DeleteMnemonic) eqn:H3; cbn.
  { exists 3%nat. cbn. rewrite <- !app_assoc. split; [reflexivity|].
    split; [intros k [<-|[<-|[]]]; assumption|].
    right. split; [reflexivity|]. exists DeleteMnemonic. auto. }
  destruct (fails ResetDatabase) eqn:H4; cbn.
  { exists 4%nat. cbn. rewrite <- !app_assoc. split; [reflexivity|].
    split; [intros k [<-|[<-|[<-|[]]]]; assumption|].
    right. split; [reflexivity|]. exists ResetDatabase. auto. }
  destruct (fails ResetOnboarding) eqn:H5; cbn.
  { exists 5%nat. cbn. rewrite <- !app_assoc. split; [reflexivity|].
    split; [intros k [<-|[<-|[<-|[<-|[]]]]]; assumption|].
    right. split; [reflexivity|]. exists ResetOnboarding. auto. }
  exists 5%nat. cbn. rewrite <- !app_assoc. split; [reflexivity|].
  split; [intros k [<-|[<-|[<-|[<-|[]]]]]; assumption|].
  left. split; [reflexivity|]. split; [reflexivity|].
  intros k [<-|[<-|[<-|[<-|[<-|[]]]]]]; assumption.
Qed.

(** ** The activity detail screen *)

Lemma startsWith_app (sub q : jsstring) : startsWith (sub ++ q) sub = true.
Proof.
  induction sub as [|c sub IH]; [reflexivity|].
  cbn. rewrite N.eqb_refl. exact IH.
Qed.

Lemma includes_app (p sub q : jsstring) : includes (p ++ sub ++ q) sub = true.
Proof.
  induction p as [|c p IH].
  - cbn [app]. destruct (sub ++ q) eqn:E; cbn [includes];
      rewrite <- E, startsWith_app; reflexivity.
  - cbn [app includes]. rewrite IH. apply orb_true_r.
Qed.

Section ActivityTexts.

Variable toLowerCase : jsstring -> jsstring.
Variable Auth : jsstring.

Local Abbreviation status := (getActivityStatus toLowerCase).
Local Abbreviation description := (getActivityDescription toLowerCase Auth).

(** X23.  The status line is never "Unknown" and the description is never
    one of the two generic texts: with the status computed from the detail,
    as the screen does, the [default] branches of [getStatusText] and
    [getActivityDescription] are dead. *)
Theorem activity_texts_never_default (type detail : jsstring) :
  In (getStatusText (status detail)) [js "Completed"; js "Pending"; js "Failed"]
  /\ getStatusText (status detail) <> js "Unknown"
  /\ description type (status detail) detail <> js "Authentication request"
  /\ description type (status detail) detail <> js "Payment request".
Proof.
  unfold getActivityStatus, getActivityDescription, getStatusText.
  destruct (includes (toLowerCase detail) (js "approved")
            || includes (toLowerCase detail) (js "success"));
    [|destruct (includes (toLowerCase detail) (js "failed")
               || includes (toLowerCase detail) (js "denied")
               || includes (toLowerCase detail) (js "error")
               || includes (toLowerCase detail) (js "rejected"))];
    destruct (bool_decide (type = Auth));
    try destruct (includes (toLowerCase detail) (js "denied"));
    (split; [vm_compute; tauto|]); repeat split; vm_compute; discriminate.
Qed.

(** X24.  Success words win, wherever they stand.  A detail whose lower-case
    form contains ["success"] (or ["approved"]) anywhere, inside a longer
    word too, is shown as "Completed" with the success description, also
    when it names a failure. *)
Theorem success_word_wins (type detail before after word : jsstring) :
  word = js "success" \/ word = js "approved" ->
  toLowerCase detail = before ++ word ++ after ->
  getStatusText (status detail) = js "Completed"
  /\ description type (status detail) detail
     = if bool_decide (type = Auth)
       then js "You successfully authenticated with this service"
       else js "Payment was completed successfully".
Proof.
  intros Hword Hdetail.
  assert (Hs : status detail = js "success").
  { unfold getActivityStatus. rewrite Hdetail.
    destruct Hword as [-> | ->]; rewrite includes_app, ?orb_true_r; reflexivity. }
  rewrite Hs. unfold getActivityDescription.
  destruct (bool_decide (type = Auth)); split; reflexivity.
Qed.

(** X25.  "You denied ..." is shown exactly for a detail that says so and
    holds no success word: the description is one of the two "You denied"
    texts if and only if the lower-case detail includes ["denied"] and
    neither ["approved"] nor ["success"]. *)
Theorem denied_description (type detail : jsstring) :
  let lowerDetail := toLowerCase detail in
  (description type (status detail) detail = js "You denied the authentication request"
   \/ description type (status detail) detail = js "You denied the payment request")
  <-> (includes lowerDetail (js "denied") = true
       /\ includes lowerDetail (js "approved") = false
       /\ includes lowerDetail (js "success") = false).
Proof.
  cbn zeta. unfold getActivityStatus, getActivityDescription.
  destruct (includes (toLowerCase detail) (js "approved")),
    (includes (toLowerCase detail) (js "success")),
    (includes (toLowerCase detail) (js "failed")),
    (includes (toLowerCase detail) (js "denied")),
    (includes (toLowerCase detail) (js "error")),
    (includes (toLowerCase detail) (js "rejected")),
    (bool_decide (type = Auth)); cbn [orb].
  all: split;
    [ intros [H|H];
      first [ vm_compute in H; discriminate H | repeat split; reflexivity ]
    | intros (H1 & H2 & H3);
      first [ discriminate | left; reflexivity | right; reflexivity ] ].
Qed.

End ActivityTexts.

Lemma success_word_wins_witness :
  let detail := js "payment unsuccessful: rejected" in
  getStatusText (getActivityStatus (fun s => s) detail) = js "Completed"
  /\ getActivityDescription (fun s => s) (js "auth") (js "pay")
       (getActivityStatus (fun s => s) detail) detail
     = js "Payment was completed successfully".
Proof.
  apply (success_word_wins (fun s => s) (js "auth") (js "pay")
           (js "payment unsuccessful: rejected")
           (js "payment un") (js "ful: rejected") (js "success")).
  - left. reflexivity.
  - reflexivity.
Defined.

(** X26.  What the activity screen shows once its effect has run.  With an
    id, the loader is gone and the screen shows the row the database gave,
    "Activity not found" when it gave none, or "Failed to load activity"
    when the query threw.  Without an id the fetch never starts and the
    screen stays on its loader. *)
Theorem activity_view_after_effect {A : Type} (id : option jsstring)
    (answer : Completion (option A)) :
  view (idEffect id answer opened)
  = if truthyOpt id then
      match answer with
      | Done (Some a) => Details a
      | Done None => ErrorText "Activity not found"
      | _ => ErrorText "Failed to load activity"
      end
    else Loader.
Proof.
  unfold idEffect. destruct (truthyOpt id); [|reflexivity].
  destruct answer as [[a|]| | |]; reflexivity.
Qed.

(** X27.  An error is never cleared: once the screen holds an error text,
    every later fetch leaves an error text on display, also one that finds
    the activity. *)
Theorem activity_error_sticks {A : Type} (answer : Completion (option A))
    (s : ActivityScreen A) :
  hasText (error s) = true ->
  exists text, view (fetchActivity answer s) = ErrorText text /\ text <> "".
Proof.
  intros Herr. unfold view.
  destruct answer as [[a|]| | |]; cbn.
  - rewrite Herr. destruct (error s) as [t|]; [|discriminate Herr].
    cbn in Herr |- *. destruct (String.eqb_spec t ""); [discriminate Herr|].
    exists t. auto.
  - destruct (activity s); eexists; (split; [reflexivity|discriminate]).
  - destruct (activity s); eexists; (split; [reflexivity|discriminate]).
  - destruct (activity s); eexists; (split; [reflexivity|discriminate]).
  - destruct (activity s); eexists; (split; [reflexivity|discriminate]).
Qed.

Lemma activity_error_sticks_witness :
  exists text,
    view (fetchActivity (Done (Some 7%nat)) (fetchActivity Thrown opened)) = ErrorText text
    /\ text <> "".
Proof.
  apply (activity_error_sticks (Done (Some 7%nat)) (fetchActivity Thrown opened)).
  reflexivity.
Defined.

(** ** Push registration *)

Ltac run_push :=
  unfold expoPushToken, registerForPushNotificationsAsync, andThen, awaitCall,
    handleRegistrationError;
  repeat first
    [ progress cbn [fst snd alerted pushCalls errorLogged pushCall logPushError noPush
                    negb app length]
    | case_bool_decide
    | match goal with
      | |- context [match ?x with _ => _ end] =>
          lazymatch x with
          | isDevice _ => destruct x eqn:?
          | isAndroid _ => destruct x eqn:?
          | existingStatus _ => destruct x eqn:?
          | requestedStatus _ => destruct x eqn:?
          | pushToken _ => destruct x eqn:?
          | negb (truthyOpt ?y) => destruct (truthyOpt y) eqn:?
          end
      end ].

(** X28.  [registerForPushNotificationsAsync] gives a token or fails aloud:
    it never resolves with [undefined], although the source returns without
    a value after [handleRegistrationError].  When it resolves, it is with
    the token the platform gave, on a physical device with a project id, and
    no alert was shown.  It shows at most one alert, and when it shows one it
    rejects with an [Error] of that text, which the layout then puts in
    [expoPushToken]. *)
Theorem registration_token_or_alert (d : Device) :
  let r := fst (registerForPushNotificationsAsync d) in
  let p := snd (registerForPushNotificationsAsync d) in
  r <> Resolves None
  /\ (forall token, r = Resolves (Some token) ->
        pushToken d = Resolves token /\ alerted p = []
        /\ isDevice d = true /\ truthyOpt (projectId d) = true
        /\ expoPushToken d = token)
  /\ (length (alerted p) <= 1)%nat
  /\ (forall message, In message (alerted p) ->
        r = Rejects (errorText message) /\ expoPushToken d = errorText message).
Proof.
  cbn zeta. run_push.
  all: split; [discriminate|].
  all: split; [first [ intros ? [= <-]; solve [auto 10] | intros ? Hr; discriminate Hr ]|].
  all: split; [lia|].
  all: cbn [In]; intros ? Hin; repeat destruct Hin as [Hin|Hin];
       try contradiction; subst; auto.
Qed.

(** X29.  The registration asks for as little as it can: the notification
    channel is set on Android only, permission is requested only when it is
    not already granted, and the push token is asked for only with the
    permission granted. *)
Theorem registration_calls (d : Device) :
  let calls := pushCalls (snd (registerForPushNotificationsAsync d)) in
  (In SetNotificationChannel calls <-> isAndroid d = true)
  /\ (In RequestPermissions calls ->
      exists existing, existingStatus d = Resolves existing /\ existing <> GRANTED)
  /\ (In (GetExpoPushToken (projectId d)) calls ->
      existingStatus d = Resolves GRANTED \/ requestedStatus d = Resolves GRANTED).
Proof.
  cbn zeta. run_push.
  all: cbn [In]; split;
    [ split; [intros Hc; repeat destruct Hc as [Hc|Hc];
              (reflexivity || discriminate Hc || contradiction)
             | intros Hc; (discriminate Hc || auto) ] |].
  all: split;
    [ intros Hc; repeat destruct Hc as [Hc|Hc];
      try discriminate Hc; try contradiction; eauto |].
  all: intros Hc; repeat destruct Hc as [Hc|Hc];
    try discriminate Hc; try contradiction; subst; auto.
Qed.
